(** * goreplace: a shallow embedding of [main.go] and its specification

    The program rewrites a [go.mod] manifest: it removes the lines that
    start with [replace], matches a list of find/replace rules against the
    remaining lines, checks that the replacement directories exist and
    appends one [replace] directive per match.

    The development follows the source file top-down:
    - [GoStrings]   the functions of Go's [strings] that are used, and a
                    few more on byte strings;
    - [Bufio]       [bufio.Scanner] with the default [ScanLines] splitter;
    - [OS]          a file system with a trace of the system calls, and the
                    error values of package [os];
    - [IO], [Sys]   a small state-and-error monad and the calls of [os],
                    [io] and [bufio] in it;
    - the five functions of [main.go] and [main] itself;
    - the vocabulary of the specification, lemmas on strings, lines and on
      what each function computes, and the properties C1 to C10;
    - further properties of the functions and of the whole program, X1 to
      X21: outcomes and errors, what stays unchanged, how the stripper, the
      matcher and the appender compose. *)

From Stdlib Require Import Ascii ZArith.
From stdpp Require Import gmap strings list fin_maps.

Local Open Scope string_scope.
Local Open Scope list_scope.
Local Open Scope stdpp_scope.

(** Line feed and carriage return, as bytes and as one-byte strings. *)
Definition lf : ascii := "010"%char.
Definition cr : ascii := "013"%char.
Definition LF : string := String lf "".
Definition CR : string := String cr "".

(* ===================================================================== *)
(** ** Go strings *)
(* ===================================================================== *)

Module GoStrings.

(** [strings.HasPrefix(s, prefix)] *)
Definition HasPrefix (s prefix : string) : bool := String.prefix prefix s.

(** [strings.Contains(s, substr)]: [substr] occurs at some offset of [s]. *)
Fixpoint Contains (s substr : string) : bool :=
  String.prefix substr s ||
  match s with
  | "" => false
  | String _ s' => Contains s' substr
  end.

(** [strings.Join(elems, sep)] *)
Definition Join (elems : list string) (sep : string) : string :=
  String.concat sep elems.

(** Concatenation of a list of strings, the effect of successive
    [WriteString] calls on one file. *)
Definition cat (ss : list string) : string := foldr String.app "" ss.

(** The last byte of a string, if any. *)
Fixpoint last_byte (s : string) : option ascii :=
  match s with
  | "" => None
  | String c "" => Some c
  | String _ s' => last_byte s'
  end.

(** The string without its last byte. *)
Fixpoint drop_last (s : string) : string :=
  match s with
  | "" => ""
  | String _ "" => ""
  | String c s' => String c (drop_last s')
  end.

(** No byte of the string is a line feed. *)
Fixpoint no_lf (s : string) : bool :=
  match s with
  | "" => true
  | String c s' => negb (Ascii.eqb c lf) && no_lf s'
  end.

End GoStrings.
Import GoStrings.

(* ===================================================================== *)
(** ** bufio.Scanner with the ScanLines split function *)
(* ===================================================================== *)

Module Bufio.

(** [bufio.MaxScanTokenSize]: the scanner's buffer never grows beyond
    this size, and a line has to fit into it together with its line
    feed. *)
Definition MaxScanTokenSize : Z := 64 * 1024.

(** [dropCR]: one trailing carriage return is removed from a token. *)
Definition dropCR (data : string) : string :=
  match last_byte data with
  | Some c => if Ascii.eqb c cr then drop_last data else data
  | None => data
  end.

(** The input cut at every line feed. The bytes after the last line feed
    form a line of their own unless there are none. *)
Fixpoint raw_lines (data : string) : list string :=
  match data with
  | "" => []
  | String c rest =>
      if Ascii.eqb c lf then "" :: raw_lines rest
      else match raw_lines rest with
           | [] => [String c ""]
           | l :: ls => String c l :: ls
           end
  end.

(** A raw line the buffer can hold. *)
Definition fits (raw : string) : bool :=
  (Z.of_nat (String.length raw) <? MaxScanTokenSize)%Z.

(** The tokens [Scan] delivers, up to the first line that does not fit. *)
Fixpoint tokens_of (raws : list string) : list string :=
  match raws with
  | [] => []
  | raw :: rest => if fits raw then dropCR raw :: tokens_of rest else []
  end.

(** Whether the scan ran to the end of the input. *)
Definition all_fit (raws : list string) : bool := forallb fits raws.

(** The successive values of [scanner.Text()] over a whole input. *)
Definition scan_lines (data : string) : list string :=
  tokens_of (raw_lines data).

End Bufio.
Import Bufio.

(* ===================================================================== *)
(** ** The operating system: files, errors, system calls *)
(* ===================================================================== *)

Module OS.

Inductive errno :=
| ENOENT | EACCES | ENOTDIR | EISDIR | EEXIST | ENOTEMPTY | EBADF | EINVAL.

Definition errno_Error (e : errno) : string :=
  match e with
  | ENOENT => "no such file or directory"
  | EACCES => "permission denied"
  | ENOTDIR => "not a directory"
  | EISDIR => "is a directory"
  | EEXIST => "file exists"
  | ENOTEMPTY => "directory not empty"
  | EBADF => "bad file descriptor"
  | EINVAL => "invalid argument"
  end.

(** Go's error values, as far as the program can meet them. *)
Inductive error :=
| PathError (op path : string) (e : errno)
| LinkError (op old new : string) (e : errno)
| ErrTooLong
| ErrorString (msg : string).

(** [err.Error()] *)
Definition Error (err : error) : string :=
  match err with
  | PathError op path e => op +:+ " " +:+ path +:+ ": " +:+ errno_Error e
  | LinkError op old new e =>
      op +:+ " " +:+ old +:+ " " +:+ new +:+ ": " +:+ errno_Error e
  | ErrTooLong => "bufio.Scanner: token too long"
  | ErrorString msg => msg
  end.

(** [os.IsNotExist(err)] *)
Definition IsNotExist (err : error) : bool :=
  match err with
  | PathError _ _ ENOENT | LinkError _ _ _ ENOENT => true
  | _ => false
  end.

(** What a path names. [Unreachable e]: every access to the path fails
    with [e] (a component that is not a directory, a directory that may
    not be searched). A path that names nothing is absent from the map.
    Directories are leaves: their entries are not modelled. *)
Inductive node :=
| Regular (data : string)
| Directory
| Unreachable (e : errno).

(** The system calls the process issues, in order. *)
Inductive event :=
| EvOpen (name : string)
| EvReadFile (name : string)
| EvStat (name : string)
| EvCreateTemp (name : string)
| EvWrite (name data : string)
| EvClose (name : string)
| EvRename (old new : string)
| EvRemove (name : string).

Record World := mkWorld {
  fs : gmap string node;
  trace : list event
}.

Definition log (ev : event) (w : World) : World :=
  mkWorld (fs w) (trace w ++ [ev]).

Definition set_fs (m : gmap string node) (w : World) : World :=
  mkWorld m (trace w).

(** An open file. [data] is what the descriptor reads: the bytes of the
    file when it was opened ([None] for a directory, which can be opened
    but not read). The program never writes to a file it reads from. *)
Record File := mkFile {
  Name : string;
  data : option string
}.

(** [info.IsDir()] is all the program asks of a [FileInfo]. *)
Record FileInfo := mkFileInfo { IsDir : bool }.

End OS.
Import OS.

(* ===================================================================== *)
(** ** Computations: state passing with Go's [(value, error)] results *)
(* ===================================================================== *)

Inductive result (A : Type) :=
| Ok (a : A)
| Err (err : error).
Arguments Ok {A} a.
Arguments Err {A} err.

Definition IO (A : Type) : Type := World -> World * result A.

Definition ret {A} (a : A) : IO A := fun w => (w, Ok a).

Definition throw {A} (err : error) : IO A := fun w => (w, Err err).

Definition bind {A B} (m : IO A) (k : A -> IO B) : IO B :=
  fun w =>
    match m w with
    | (w', Ok a) => k a w'
    | (w', Err err) => (w', Err err)
    end.

(** [defer d] before [body]: [d] runs when the function returns, on every
    path, and its own result is dropped. *)
Definition defer {A} (d : IO unit) (body : IO A) : IO A :=
  fun w => let '(w', r) := body w in (fst (d w'), r).

(** The two results of a call, for code that inspects [err] itself. *)
Definition attempt {A} (m : IO A) : IO (result A) :=
  fun w => let '(w', r) := m w in (w', Ok r).

(** [for _, x := range xs { body }], leaving at the first [return err]. *)
Fixpoint for_each {A} (xs : list A) (body : A -> IO unit) : IO unit :=
  match xs with
  | [] => ret tt
  | x :: xs' => bind (body x) (fun _ => for_each xs' body)
  end.

(** A loop that carries a value (a slice that is appended to). *)
Fixpoint fold_io {A S} (xs : list A) (body : S -> A -> IO S) (s : S) : IO S :=
  match xs with
  | [] => ret s
  | x :: xs' => bind (body s x) (fold_io xs' body)
  end.

Global Instance IO_ret : MRet IO := @ret.
Global Instance IO_bind : MBind IO := fun A B k m => bind m k.

(* ===================================================================== *)
(** ** System calls *)
(* ===================================================================== *)

(** A call fails for the reasons that the file system shows: a path that
    names nothing, a directory where a file is needed, a path that cannot
    be reached. Failures that depend on the rest of the machine (a full
    disk, a temporary directory on another device) are not part of the
    model; with them a call can only fail more often, and a failed call
    leaves the manifest as it was. *)
Module Sys.

(** [os.Open(name)] *)
Definition Open (name : string) : IO File :=
  fun w =>
    let w := log (EvOpen name) w in
    match fs w !! name with
    | Some (Regular d) => (w, Ok (mkFile name (Some d)))
    | Some Directory => (w, Ok (mkFile name None))
    | Some (Unreachable e) => (w, Err (PathError "open" name e))
    | None => (w, Err (PathError "open" name ENOENT))
    end.

(** [file.Close()] *)
Definition Close (f : File) : IO unit :=
  fun w => (log (EvClose (Name f)) w, Ok tt).

(** [io.ReadAll(file)] *)
Definition ReadAll (f : File) : IO string :=
  match data f with
  | Some d => ret d
  | None => throw (PathError "read" (Name f) EISDIR)
  end.

(** [os.ReadFile(name)] *)
Definition ReadFile (name : string) : IO string :=
  fun w =>
    let w := log (EvReadFile name) w in
    match fs w !! name with
    | Some (Regular d) => (w, Ok d)
    | Some Directory => (w, Err (PathError "read" name EISDIR))
    | Some (Unreachable e) => (w, Err (PathError "open" name e))
    | None => (w, Err (PathError "open" name ENOENT))
    end.

(** [os.Stat(name)] *)
Definition Stat (name : string) : IO FileInfo :=
  fun w =>
    let w := log (EvStat name) w in
    match fs w !! name with
    | Some (Regular _) => (w, Ok (mkFileInfo false))
    | Some Directory => (w, Ok (mkFileInfo true))
    | Some (Unreachable e) => (w, Err (PathError "stat" name e))
    | None => (w, Err (PathError "stat" name ENOENT))
    end.

(** [os.TempDir()] *)
Definition TempDir : string := "/tmp".

(** The rest of [s] after the prefix [p], if [s] starts with [p]. *)
Fixpoint strip_prefix (p s : string) : option string :=
  match p, s with
  | "", _ => Some s
  | String a p', String b s' =>
      if Ascii.eqb a b then strip_prefix p' s' else None
  | String _ _, "" => None
  end.

(** A name [prefix ++ suffix] that no file has. Go draws the suffix at
    random and retries while the name is taken. *)
Definition temp_name (prefix : string) (used : gset string) : string :=
  prefix +:+ fresh (set_omap (strip_prefix prefix) used : gset string).

(** [os.CreateTemp(dir, pattern)]: a new, empty file with an unused name
    in [dir] (in [os.TempDir()] if [dir] is empty). *)
Definition CreateTemp (dir pattern : string) : IO File :=
  fun w =>
    let dir := if String.eqb dir "" then TempDir else dir in
    let name := temp_name (dir +:+ "/" +:+ pattern) (dom (fs w)) in
    (log (EvCreateTemp name) (set_fs (<[name := Regular ""]> (fs w)) w),
     Ok (mkFile name (Some ""))).

(** [file.WriteString(s)] and [file.Write(b)]: the bytes go to the end of
    the file. *)
Definition WriteString (f : File) (s : string) : IO unit :=
  fun w =>
    let w := log (EvWrite (Name f) s) w in
    match fs w !! Name f with
    | Some (Regular d) =>
        (set_fs (<[Name f := Regular (d +:+ s)]> (fs w)) w, Ok tt)
    | _ => (w, Err (PathError "write" (Name f) EBADF))
    end.

Definition Write (f : File) (b : string) : IO unit := WriteString f b.

(** [os.Rename(oldpath, newpath)]: [newpath] now names the file that
    [oldpath] named, whatever [newpath] named before is gone. Only
    regular files are moved (directories have no entries here). *)
Definition Rename (oldpath newpath : string) : IO unit :=
  fun w =>
    let w := log (EvRename oldpath newpath) w in
    match fs w !! oldpath with
    | Some (Regular d) =>
        match fs w !! newpath with
        | Some Directory =>
            (w, Err (LinkError "rename" oldpath newpath EEXIST))
        | Some (Unreachable e) =>
            (w, Err (LinkError "rename" oldpath newpath e))
        | Some (Regular _) | None =>
            (set_fs (<[newpath := Regular d]> (delete oldpath (fs w))) w,
             Ok tt)
        end
    | Some Directory => (w, Err (LinkError "rename" oldpath newpath EINVAL))
    | Some (Unreachable e) =>
        (w, Err (LinkError "rename" oldpath newpath e))
    | None => (w, Err (LinkError "rename" oldpath newpath ENOENT))
    end.

(** [os.Remove(name)] *)
Definition Remove (name : string) : IO unit :=
  fun w =>
    let w := log (EvRemove name) w in
    match fs w !! name with
    | Some (Regular _) => (set_fs (delete name (fs w)) w, Ok tt)
    | Some Directory => (w, Err (PathError "remove" name ENOTEMPTY))
    | Some (Unreachable e) => (w, Err (PathError "remove" name e))
    | None => (w, Err (PathError "remove" name ENOENT))
    end.

(** [bufio.NewScanner(file)], with [Scan], [Text] and [Err]: the lines
    the loop [for scanner.Scan()] sees, and the error that ended it. *)
Record Scanner := NewScanner { src : File }.

Definition Texts (s : Scanner) : list string :=
  match data (src s) with
  | Some d => scan_lines d
  | None => []
  end.

Definition ScanErr (s : Scanner) : option error :=
  match data (src s) with
  | Some d => if all_fit (raw_lines d) then None else Some ErrTooLong
  | None => Some (PathError "read" (Name (src s)) EISDIR)
  end.

End Sys.

(* ===================================================================== *)
(** ** main.go *)
(* ===================================================================== *)

(** [type FindReplace struct] *)
Record FindReplace := mkFindReplace {
  Find : string;
  Replace : string
}.

Global Instance FindReplace_eq_dec : EqDecision FindReplace.
Proof. solve_decision. Defined.

(** [fmt.Sprintf("replace %s => %s\n", cmd.Find, cmd.Replace)] *)
Definition directive (cmd : FindReplace) : string :=
  "replace " +:+ Find cmd +:+ " => " +:+ Replace cmd +:+ LF.

(** [fmt.Errorf("replace module error(s) or missing:\n%s", s)] *)
Definition missing_error (combinedMissingStr : string) : error :=
  ErrorString
    ("replace module error(s) or missing:" +:+ LF +:+ combinedMissingStr).

(** The inner loop of [findMatchesInFile]: the rules found in one line are
    appended to [found] in the order of [find]. *)
Definition match_line (find : list FindReplace) (found : list FindReplace)
    (line : string) : list FindReplace :=
  fold_left
    (fun found cmd =>
       if Contains line (Find cmd) then found ++ [cmd] else found)
    find found.

Definition findMatchesInFile (filePath : string) (find : list FindReplace)
    : IO (list FindReplace) :=
  file ← Sys.Open filePath;
  defer (Sys.Close file) (
    let scanner := Sys.NewScanner file in
    let found := fold_left (match_line find) (Sys.Texts scanner) [] in
    match Sys.ScanErr scanner with
    | Some err => throw err
    | None => ret found
    end).

(** [dirExists] checks if a given path exists and is a directory. *)
Definition dirExists (path : string) : IO bool :=
  r ← attempt (Sys.Stat path);
  match r with
  | Err err => if IsNotExist err then ret false else throw err
  | Ok info => ret (IsDir info)
  end.

Definition validateLocalReposExist (replace : list FindReplace) : IO unit :=
  missing ←
    fold_io replace
      (fun missing cmd =>
         r ← attempt (dirExists (Replace cmd));
         match r with
         | Err err => ret (missing ++ [Error err])
         | Ok exists_ =>
             if negb exists_ then ret (missing ++ [Replace cmd])
             else ret missing
         end)
      [];
  if negb (length missing =? 0)%nat then
    throw (missing_error (Join missing LF))
  else ret tt.

Definition appendModReplace (goModPath : string)
    (replace : list FindReplace) : IO unit :=
  originalContent ← Sys.ReadFile goModPath;
  tempFile ← Sys.CreateTemp "" "go.mod.temp";
  defer (Sys.Close tempFile) (
  defer (Sys.Remove (Name tempFile)) (
    Sys.Write tempFile originalContent ;;
    for_each replace
      (fun cmd => Sys.WriteString tempFile (directive cmd)) ;;
    Sys.Close tempFile ;;
    Sys.Rename (Name tempFile) goModPath)).

Definition deleteLinesWithReplace (filePath : string) : IO unit :=
  originalFile ← Sys.Open filePath;
  defer (Sys.Close originalFile) (
    tempFile ← Sys.CreateTemp "" "go.mod.temp";
    defer (Sys.Close tempFile) (
    defer (Sys.Remove (Name tempFile)) (
      let scanner := Sys.NewScanner originalFile in
      for_each (Sys.Texts scanner)
        (fun line =>
           if negb (HasPrefix line "replace") then
             Sys.WriteString tempFile (line +:+ LF)
           else ret tt) ;;
      match Sys.ScanErr scanner with
      | Some err => throw err
      | None =>
          Sys.Close originalFile ;;
          Sys.Close tempFile ;;
          Sys.Rename (Name tempFile) filePath
      end))).

(** The command line: [-gomod], [-config], [-clean]. *)
Record Flags := mkFlags {
  goModPath : string;
  goModConfigPath : string;
  clean : bool
}.

Definition default_flags : Flags := mkFlags "go.mod.test" "replace.yaml" false.

(** How the process ends: [main] returns, or [log.Fatal(err)] prints the
    error and calls [os.Exit(1)]. *)
Inductive Exit :=
| Returned
| Fatal (err : error).

Definition exit_status (e : Exit) : Z :=
  match e with
  | Returned => 0%Z
  | Fatal _ => 1%Z
  end.

Section Main.

(** [yaml.Unmarshal(byteValue, &findReplaces)], from [gopkg.in/yaml.v3]. *)
Variable Unmarshal : string -> result (list FindReplace).

Definition readYamlConfig (filePath : string) : IO (list FindReplace) :=
  file ← Sys.Open filePath;
  defer (Sys.Close file) (
    byteValue ← Sys.ReadAll file;
    match Unmarshal byteValue with
    | Err err => throw err
    | Ok findReplaces => ret findReplaces
    end).

(** The body of [main]; every [log.Fatal(err)] is an [Err] here. *)
Definition run (flags : Flags) : IO unit :=
  deleteLinesWithReplace (goModPath flags) ;;
  if clean flags then ret tt
  else
    find ← readYamlConfig (goModConfigPath flags);
    replace ← findMatchesInFile (goModPath flags) find;
    validateLocalReposExist replace ;;
    appendModReplace (goModPath flags) replace.

Definition main (flags : Flags) (w : World) : World * Exit :=
  match run flags w with
  | (w', Ok _) => (w', Returned)
  | (w', Err err) => (w', Fatal err)
  end.

End Main.

(* ===================================================================== *)
(** ** The vocabulary of the specification *)
(* ===================================================================== *)

(** The file that the lines [ls], each followed by a line feed, make. *)
Definition unlines (ls : list string) : string :=
  cat (map (fun l => l +:+ LF) ls).

(** The test of [deleteLinesWithReplace]: the line is written again. *)
Definition keep (line : string) : bool := negb (HasPrefix line "replace").

(** The content [deleteLinesWithReplace] leaves for a file with content
    [d]: the scanned lines that are kept, each followed by a line feed. *)
Definition stripped (d : string) : string :=
  unlines (List.filter keep (scan_lines d)).

(** The test of [findMatchesInFile]: the rule is found in the line. *)
Definition hit (line : string) (cmd : FindReplace) : bool :=
  Contains line (Find cmd).

Global Arguments keep : simpl never.
Global Arguments hit : simpl never.

(** The match set for the lines [lines]: line by line, the rules found in
    the line in the order of the configuration. *)
Definition matches (find : list FindReplace) (lines : list string)
    : list FindReplace :=
  flat_map (fun line => List.filter (hit line) find) lines.

(** The name of the temporary file that is created in world [w]. *)
Definition temp_of (w : World) : string :=
  Sys.temp_name (Sys.TempDir +:+ "/" +:+ "go.mod.temp") (dom (fs w)).

(** The result of [dirExists] in a file system. *)
Definition dir_status (m : gmap string node) (path : string) : result bool :=
  match m !! path with
  | Some Directory => Ok true
  | Some (Regular _) | None => Ok false
  | Some (Unreachable e) =>
      if IsNotExist (PathError "stat" path e) then Ok false
      else Err (PathError "stat" path e)
  end.

(** What [validateLocalReposExist] reports for one matched rule: nothing
    for a directory, the path if it is missing or not a directory, the
    text of the error if it cannot be examined. *)
Definition offence (m : gmap string node) (cmd : FindReplace)
    : option string :=
  match dir_status m (Replace cmd) with
  | Ok true => None
  | Ok false => Some (Replace cmd)
  | Err err => Some (Error err)
  end.

(** The events of a successful [deleteLinesWithReplace]. *)
Definition strip_events (w : World) (path d : string) : list event :=
  [EvOpen path; EvCreateTemp (temp_of w)] ++
  map (fun l => EvWrite (temp_of w) (l +:+ LF))
      (List.filter keep (scan_lines d)) ++
  [EvClose path; EvClose (temp_of w); EvRename (temp_of w) path;
   EvRemove (temp_of w); EvClose (temp_of w); EvClose path].

(** The events of a successful [appendModReplace]. *)
Definition append_events (w : World) (path d : string)
    (replace : list FindReplace) : list event :=
  [EvReadFile path; EvCreateTemp (temp_of w); EvWrite (temp_of w) d] ++
  map (fun cmd => EvWrite (temp_of w) (directive cmd)) replace ++
  [EvClose (temp_of w); EvRename (temp_of w) path;
   EvRemove (temp_of w); EvClose (temp_of w)].

(** Input that is empty or ends with a line feed ends a line. *)
Definition ends_line (pre : string) : Prop :=
  pre = "" \/ last_byte pre = Some lf.

(** A system call that only looks at the file system. *)
Definition inspects (ev : event) : bool :=
  match ev with
  | EvOpen _ | EvClose _ | EvStat _ => true
  | _ => false
  end.

(** The text of a directive without its line feed. *)
Definition directive_line (cmd : FindReplace) : string :=
  "replace " +:+ Find cmd +:+ " => " +:+ Replace cmd.

(** Neither field of the rule has a line feed, and its directive fits the
    scanner's buffer. *)
Definition one_line (cmd : FindReplace) : Prop :=
  no_lf (Find cmd) = true /\ no_lf (Replace cmd) = true /\
  fits (directive_line cmd) = true.

(** The second file system differs from the first at most in what [path]
    names; in particular it has the same paths. *)
Definition only_changes (path : string) (m m' : gmap string node) : Prop :=
  dom m' = dom m /\ forall q, q <> path -> m' !! q = m !! q.

(* ===================================================================== *)
(** ** Manifests and file systems of the examples *)
(* ===================================================================== *)

(** A manifest with three lines, and three rules. *)
Definition C1_world : World :=
  mkWorld
    {[ "go.mod" :=
         Regular ("require foo/bar v1.0.0" +:+ LF +:+
                  "require foo/baz v1.2.0" +:+ LF +:+
                  "// foo/bar is patched" +:+ LF) ]}
    [].

Definition C1_rules : list FindReplace :=
  [mkFindReplace "foo/bar" "../local/bar";
   mkFindReplace "foo/" "../local/foo";
   mkFindReplace "quux" "../local/quux"].

(** A manifest with one line. *)
Definition C3_world : World :=
  mkWorld {[ "go.mod" := Regular ("require foo/bar v1.0.0" +:+ LF) ]} [].

(** A manifest whose only line ends with two carriage returns and a line
    feed. *)
Definition stray_cr_world : World :=
  mkWorld {[ "go.mod" := Regular ("a" +:+ CR +:+ CR +:+ LF) ]} [].

(** A manifest with a line that ends with carriage return and line feed,
    a directive, and a last line without line feed. *)
Definition C2_world : World :=
  mkWorld
    {[ "go.mod" :=
         Regular ("require foo/bar v1.0.0" +:+ CR +:+ LF +:+
                  "replace foo/bar => ./old" +:+ LF +:+
                  "go 1.21") ]}
    [].

(** The scenario of the specification: a requirement, an old directive,
    and a configuration with one rule. [../local/bar] is a directory in
    [scenario_world true] and does not exist in [scenario_world false]. *)
Definition scenario_manifest : string :=
  "require foo/bar v1.0.0" +:+ LF +:+ "replace foo/bar => ./old" +:+ LF.

Definition scenario_world (bar_exists : bool) : World :=
  mkWorld
    (<["go.mod" := Regular scenario_manifest]>
       (<["replace.yaml" := Regular "- find: foo/bar"]>
          (if bar_exists then {[ "../local/bar" := Directory ]} else ∅)))
    [].

Definition scenario_yaml (_ : string) : result (list FindReplace) :=
  Ok [mkFindReplace "foo/bar" "../local/bar"].

Definition scenario_flags (clean : bool) : Flags :=
  mkFlags "go.mod" "replace.yaml" clean.

(* ===================================================================== *)
(** ** Strings and lines *)
(* ===================================================================== *)

Section StringFacts.

Implicit Types (s t u : string) (c : ascii) (ls : list string).

Lemma app_cons c s t : String c s +:+ t = String c (s +:+ t).
Proof. reflexivity. Qed.

Lemma app_empty_l s : "" +:+ s = s.
Proof. reflexivity. Qed.

Lemma app_empty_r s : s +:+ "" = s.
Proof. induction s as [|c s IH]; [done|]. by rewrite app_cons, IH. Qed.

Lemma app_assoc' s t u : (s +:+ t) +:+ u = s +:+ (t +:+ u).
Proof. induction s as [|c s IH]; [done|]. by rewrite !app_cons, IH. Qed.

Lemma length_app' s t :
  String.length (s +:+ t) = (String.length s + String.length t)%nat.
Proof. induction s as [|c s IH]; [done|]. rewrite app_cons. simpl. by rewrite IH. Qed.

Lemma cat_nil : cat [] = "".
Proof. reflexivity. Qed.

Lemma cat_cons s ls : cat (s :: ls) = s +:+ cat ls.
Proof. reflexivity. Qed.

Lemma cat_app ls1 ls2 : cat (ls1 ++ ls2) = cat ls1 +:+ cat ls2.
Proof.
  induction ls1 as [|l ls1 IH]; [done|].
  by rewrite <- app_comm_cons, !cat_cons, IH, app_assoc'.
Qed.

Lemma prefix_empty s : String.prefix "" s = true.
Proof. by destruct s. Qed.

Lemma prefix_app s t : String.prefix s (s +:+ t) = true.
Proof.
  induction s as [|c s IH]; [apply prefix_empty|].
  rewrite app_cons. simpl. by destruct (ascii_dec c c).
Qed.

Lemma prefix_split p s :
  String.prefix p s = true -> exists t, s = p +:+ t.
Proof.
  revert s. induction p as [|c p IH]; intros s H; [by exists s|].
  destruct s as [|d s]; [done|]. simpl in H.
  destruct (ascii_dec c d) as [->|]; [|done].
  destruct (IH _ H) as [t ->]. by exists t.
Qed.

Lemma prefix_app_r p s t :
  String.prefix p s = true -> String.prefix p (s +:+ t) = true.
Proof.
  intros [u ->]%prefix_split. rewrite app_assoc'. apply prefix_app.
Qed.

Lemma Contains_eq s sub :
  Contains s sub =
  String.prefix sub s ||
  match s with "" => false | String _ s' => Contains s' sub end.
Proof. by destruct s. Qed.

(** [Contains] is the substring relation. *)
Lemma Contains_intro s1 sub s2 : Contains (s1 +:+ sub +:+ s2) sub = true.
Proof.
  induction s1 as [|c s1 IH].
  - rewrite app_empty_l, Contains_eq. by rewrite prefix_app.
  - rewrite app_cons, Contains_eq, IH. apply orb_true_r.
Qed.

Lemma Contains_elim s sub :
  Contains s sub = true -> exists s1 s2, s = s1 +:+ sub +:+ s2.
Proof.
  induction s as [|c s IH]; intros H.
  - destruct sub; [by exists "", ""|done].
  - rewrite Contains_eq in H. apply orb_true_iff in H as [H|H].
    + apply prefix_split in H as [t ->]. by exists "", t.
    + destruct (IH H) as (s1 & s2 & ->). by exists (String c s1), s2.
Qed.

Lemma Contains_spec s sub :
  Contains s sub = true <-> exists s1 s2, s = s1 +:+ sub +:+ s2.
Proof.
  split; [apply Contains_elim|]. intros (s1 & s2 & ->). apply Contains_intro.
Qed.

Lemma Contains_empty s : Contains s "" = true.
Proof. by rewrite Contains_eq, prefix_empty. Qed.

Lemma Contains_app_l s t sub :
  Contains s sub = true -> Contains (s +:+ t) sub = true.
Proof.
  intros (s1 & s2 & ->)%Contains_elim.
  rewrite !app_assoc'. apply Contains_intro.
Qed.

Lemma Contains_app_r s t sub :
  Contains t sub = true -> Contains (s +:+ t) sub = true.
Proof.
  intros (s1 & s2 & ->)%Contains_elim.
  rewrite <- app_assoc'. apply Contains_intro.
Qed.

(** A string is what is left without its last byte, and its last byte. *)
Lemma drop_last_last s c :
  last_byte s = Some c -> s = drop_last s +:+ String c "".
Proof.
  induction s as [|d s IH]; [done|]. simpl.
  destruct s as [|e s]; [by intros [= ->]|].
  intros H. rewrite app_cons. f_equal. by apply IH.
Qed.

Lemma last_byte_app s c : last_byte (s +:+ String c "") = Some c.
Proof.
  induction s as [|d s IH]; [done|]. rewrite app_cons. simpl.
  destruct (s +:+ String c "") eqn:E; [by destruct s|done].
Qed.

Lemma drop_last_app s c : drop_last (s +:+ String c "") = s.
Proof.
  induction s as [|d s IH]; [done|]. rewrite app_cons. simpl.
  destruct (s +:+ String c "") eqn:E; [by destruct s|]. by rewrite IH.
Qed.

Lemma no_lf_app s t : no_lf (s +:+ t) = no_lf s && no_lf t.
Proof.
  induction s as [|c s IH]; [done|]. rewrite app_cons. simpl.
  by rewrite IH, andb_assoc.
Qed.

End StringFacts.

Section ScannerFacts.

Implicit Types (s t data : string) (c : ascii) (ls : list string).

Lemma dropCR_cr s : dropCR (s +:+ CR) = s.
Proof.
  unfold dropCR, CR. rewrite last_byte_app.
  by rewrite (Ascii.eqb_refl cr), drop_last_app.
Qed.

Lemma dropCR_cases s : dropCR s = s \/ s = dropCR s +:+ CR.
Proof.
  unfold dropCR. destruct (last_byte s) as [c|] eqn:E; [|by left].
  destruct (Ascii.eqb c cr) eqn:Ec; [|by left].
  apply Ascii.eqb_eq in Ec as ->. right. by apply drop_last_last.
Qed.

Lemma dropCR_id s : last_byte s <> Some cr -> dropCR s = s.
Proof.
  unfold dropCR. destruct (last_byte s) as [c|]; [|done].
  destruct (Ascii.eqb c cr) eqn:Ec; [|done].
  apply Ascii.eqb_eq in Ec as ->. done.
Qed.

Lemma dropCR_changes s : last_byte s = Some cr -> dropCR s <> s.
Proof.
  intros H E. unfold dropCR in E. rewrite H in E.
  rewrite (Ascii.eqb_refl cr) in E.
  apply drop_last_last, (f_equal String.length) in H.
  rewrite length_app', E in H. simpl in H. lia.
Qed.

Lemma dropCR_length s : (String.length (dropCR s) <= String.length s)%nat.
Proof.
  destruct (dropCR_cases s) as [->|H]; [done|].
  rewrite H at 2. rewrite length_app'. lia.
Qed.

Lemma dropCR_prefix p s :
  String.prefix p (dropCR s) = true -> String.prefix p s = true.
Proof.
  destruct (dropCR_cases s) as [->|H]; [done|].
  intros Hp. rewrite H. by apply prefix_app_r.
Qed.

Lemma dropCR_no_lf s : no_lf s = true -> no_lf (dropCR s) = true.
Proof.
  destruct (dropCR_cases s) as [->|H]; [done|].
  rewrite H at 1. rewrite no_lf_app. by intros [? _]%andb_true_iff.
Qed.

Lemma dropCR_fits s : fits s = true -> fits (dropCR s) = true.
Proof.
  unfold fits. intros H%Z.ltb_lt. apply Z.ltb_lt.
  pose proof (dropCR_length s). lia.
Qed.

Lemma raw_lines_cons c s :
  raw_lines (String c s) =
  if Ascii.eqb c lf then "" :: raw_lines s
  else match raw_lines s with
       | [] => [String c ""]
       | l :: ls => String c l :: ls
       end.
Proof. reflexivity. Qed.

Lemma raw_lines_nil s : raw_lines s = [] -> s = "".
Proof.
  destruct s as [|c s]; [done|]. rewrite raw_lines_cons.
  destruct (Ascii.eqb c lf); [done|]. by destruct (raw_lines s).
Qed.

(** A line and its line feed in front of the input. *)
Lemma raw_lines_line l rest :
  no_lf l = true -> raw_lines (l +:+ LF +:+ rest) = l :: raw_lines rest.
Proof.
  induction l as [|c l IH]; intros H.
  - rewrite app_empty_l. unfold LF. rewrite app_cons, raw_lines_cons.
    by rewrite (Ascii.eqb_refl lf).
  - simpl in H. apply andb_true_iff in H as [Hc Hl].
    rewrite app_cons, raw_lines_cons, (IH Hl).
    by apply negb_true_iff in Hc as ->.
Qed.

(** The bytes after the last line feed. *)
Lemma raw_lines_last l : no_lf l = true -> l <> "" -> raw_lines l = [l].
Proof.
  induction l as [|c l IH]; intros H Hne; [done|].
  simpl in H. apply andb_true_iff in H as [Hc Hl].
  rewrite raw_lines_cons. apply negb_true_iff in Hc as ->.
  destruct l as [|d l]; [done|]. by rewrite IH.
Qed.

Lemma raw_lines_no_lf data :
  Forall (fun l => no_lf l = true) (raw_lines data).
Proof.
  induction data as [|c s IH]; [constructor|]. rewrite raw_lines_cons.
  destruct (Ascii.eqb c lf) eqn:Ec; [by constructor|].
  destruct (raw_lines s) as [|l ls].
  - repeat constructor. simpl. by rewrite Ec.
  - inversion IH; subst. constructor; [|done]. simpl. by rewrite Ec.
Qed.

Lemma unlines_cons l ls : unlines (l :: ls) = l +:+ LF +:+ unlines ls.
Proof. unfold unlines. rewrite map_cons, cat_cons. apply app_assoc'. Qed.

Lemma unlines_app ls1 ls2 : unlines (ls1 ++ ls2) = unlines ls1 +:+ unlines ls2.
Proof. unfold unlines. by rewrite map_app, cat_app. Qed.

Lemma raw_lines_unlines_app ls rest :
  Forall (fun l => no_lf l = true) ls ->
  raw_lines (unlines ls +:+ rest) = ls ++ raw_lines rest.
Proof.
  induction 1 as [|l ls Hl _ IH]; [done|].
  rewrite unlines_cons, !app_assoc', raw_lines_line by done.
  by rewrite IH.
Qed.

Lemma raw_lines_unlines ls :
  Forall (fun l => no_lf l = true) ls -> raw_lines (unlines ls) = ls.
Proof.
  intros H. rewrite <- (app_empty_r (unlines ls)).
  rewrite raw_lines_unlines_app by done. apply app_nil_r.
Qed.

Lemma tokens_of_all_fit raws :
  all_fit raws = true -> tokens_of raws = map dropCR raws.
Proof.
  induction raws as [|r raws IH]; [done|]. simpl.
  intros [-> H]%andb_true_iff. by rewrite IH.
Qed.

Lemma tokens_of_no_lf raws :
  Forall (fun l => no_lf l = true) raws ->
  Forall (fun l => no_lf l = true) (tokens_of raws).
Proof.
  induction 1 as [|r raws Hr _ IH]; [constructor|]. simpl.
  destruct (fits r); constructor; [by apply dropCR_no_lf|done].
Qed.

Lemma tokens_of_fits raws : all_fit (tokens_of raws) = true.
Proof.
  induction raws as [|r raws IH]; [done|]. simpl.
  destruct (fits r) eqn:E; [|done]. simpl. by rewrite dropCR_fits.
Qed.

Lemma scan_lines_no_lf data :
  Forall (fun l => no_lf l = true) (scan_lines data).
Proof. apply tokens_of_no_lf, raw_lines_no_lf. Qed.

Lemma scan_lines_fits data : all_fit (scan_lines data) = true.
Proof. apply tokens_of_fits. Qed.

Lemma all_fit_filter (P : string -> bool) ls :
  all_fit ls = true -> all_fit (List.filter P ls) = true.
Proof.
  induction ls as [|l ls IH]; [done|]. simpl.
  intros [Hl H]%andb_true_iff. destruct (P l); simpl; rewrite ?Hl; auto.
Qed.

(** Reading back a file that was written line by line. *)
Lemma scan_lines_unlines ls :
  Forall (fun l => no_lf l = true) ls -> all_fit ls = true ->
  scan_lines (unlines ls) = map dropCR ls.
Proof.
  intros H1 H2. unfold scan_lines. rewrite raw_lines_unlines by done.
  by apply tokens_of_all_fit.
Qed.

End ScannerFacts.

(* ===================================================================== *)
(** ** What each function computes *)
(* ===================================================================== *)

(** The monad, unfolded: a function body becomes a chain of [let] and
    [match] on the results of its calls. *)
Ltac io_unfold := unfold mbind, IO_bind, bind, defer.

Section Runs.

Implicit Types (w : World) (path d : string) (find replace : list FindReplace).

Lemma strip_prefix_app p s : Sys.strip_prefix p (p +:+ s) = Some s.
Proof.
  induction p as [|c p IH]; [done|]. rewrite app_cons. simpl.
  by rewrite (Ascii.eqb_refl c).
Qed.

Lemma temp_name_fresh prefix (used : gset string) :
  Sys.temp_name prefix used ∉ used.
Proof.
  intros Hin.
  apply (is_fresh (set_omap (Sys.strip_prefix prefix) used : gset string)).
  apply elem_of_set_omap. eexists. split; [exact Hin|].
  apply strip_prefix_app.
Qed.

Lemma temp_of_fresh w : fs w !! temp_of w = None.
Proof. apply not_elem_of_dom, temp_name_fresh. Qed.

Lemma temp_of_ne w path : is_Some (fs w !! path) -> temp_of w <> path.
Proof. intros [x Hx] E. rewrite <- E, temp_of_fresh in Hx. done. Qed.

(** *** deleteLinesWithReplace *)

Lemma strip_loop (tmp : File) lines : forall w d0,
  fs w !! Name tmp = Some (Regular d0) ->
  for_each lines
    (fun line =>
       if negb (HasPrefix line "replace")
       then Sys.WriteString tmp (line +:+ LF) else ret tt) w =
  (mkWorld
     (<[Name tmp := Regular (d0 +:+ unlines (List.filter keep lines))]> (fs w))
     (trace w ++
      map (fun l => EvWrite (Name tmp) (l +:+ LF)) (List.filter keep lines)),
   Ok tt).
Proof.
  induction lines as [|l lines IH]; intros w d0 H.
  - simpl. unfold ret. destruct w as [m tr]. simpl in *.
    rewrite app_nil_r. unfold unlines; simpl.
    by rewrite app_empty_r, insert_id.
  - simpl. unfold bind. fold (keep l). destruct (keep l) eqn:Ek.
    + unfold Sys.WriteString. simpl. rewrite H.
      erewrite IH; [|simpl; apply lookup_insert_eq].
      simpl. rewrite insert_insert_eq, unlines_cons.
      by rewrite <- !app_assoc', <- app_assoc.
    + unfold ret at 1. by apply IH.
Qed.

Lemma deleteLinesWithReplace_ok path w d :
  fs w !! path = Some (Regular d) ->
  all_fit (raw_lines d) = true ->
  deleteLinesWithReplace path w =
  (mkWorld (<[path := Regular (stripped d)]> (fs w))
           (trace w ++ strip_events w path d),
   Ok tt).
Proof.
  intros Hf Hfit.
  pose proof (temp_of_fresh w) as Hfresh.
  assert (temp_of w <> path) as Hne by (apply temp_of_ne; eauto).
  unfold deleteLinesWithReplace. io_unfold.
  unfold Sys.Open. simpl. rewrite Hf.
  unfold Sys.CreateTemp. simpl. fold (temp_of w).
  unfold Sys.Texts, Sys.ScanErr. simpl. rewrite Hfit.
  erewrite strip_loop; [|simpl; apply lookup_insert_eq].
  simpl. rewrite insert_insert_eq.
  unfold Sys.Close, Sys.Rename, Sys.Remove. simpl.
  rewrite lookup_insert_eq, (lookup_insert_ne _ _ _ _ Hne), Hf.
  simpl. rewrite app_empty_l, delete_insert_eq, (delete_id _ _ Hfresh).
  rewrite lookup_insert_ne, Hfresh by done. simpl.
  unfold log, strip_events; simpl. f_equal. f_equal.
  by rewrite <- !app_assoc.
Qed.

(** In every other case the call fails and no file has changed. *)
Lemma deleteLinesWithReplace_fail path w :
  (forall d, fs w !! path = Some (Regular d) -> all_fit (raw_lines d) = false) ->
  exists w' err,
    deleteLinesWithReplace path w = (w', Err err) /\ fs w' = fs w.
Proof.
  intros Hno.
  pose proof (temp_of_fresh w) as Hfresh.
  unfold deleteLinesWithReplace. io_unfold.
  unfold Sys.Open. simpl.
  destruct (fs w !! path) as [[d| |e]|] eqn:Hf; simpl;
    try (by eexists _, _).
  - unfold Sys.CreateTemp. simpl. fold (temp_of w).
    unfold Sys.Texts, Sys.ScanErr. simpl. rewrite (Hno d eq_refl).
    erewrite strip_loop; [|simpl; apply lookup_insert_eq].
    unfold throw, Sys.Close, Sys.Remove. simpl.
    rewrite insert_insert_eq, lookup_insert_eq. simpl.
    rewrite delete_insert_eq, (delete_id _ _ Hfresh).
    by eexists _, _.
  - unfold Sys.CreateTemp. simpl. fold (temp_of w).
    unfold throw, ret, Sys.Close, Sys.Remove. simpl.
    rewrite lookup_insert_eq. simpl.
    rewrite delete_insert_eq, (delete_id _ _ Hfresh).
    by eexists _, _.
Qed.

(** A call that returns [nil] found a regular file with lines that fit. *)
Lemma deleteLinesWithReplace_inv path w w' :
  deleteLinesWithReplace path w = (w', Ok tt) ->
  exists d, fs w !! path = Some (Regular d) /\
            all_fit (raw_lines d) = true.
Proof.
  intros Hrun.
  destruct (fs w !! path) as [[d| |e]|] eqn:Hf.
  1: destruct (all_fit (raw_lines d)) eqn:Hfit; [by exists d|].
  all: destruct (deleteLinesWithReplace_fail path w) as (? & ? & E & _);
    [intros d0 Hd0; rewrite Hf in Hd0; by simplify_eq|congruence].
Qed.

(** *** appendModReplace *)

Lemma append_loop (tmp : File) replace : forall w d0,
  fs w !! Name tmp = Some (Regular d0) ->
  for_each replace
    (fun cmd => Sys.WriteString tmp (directive cmd)) w =
  (mkWorld
     (<[Name tmp := Regular (d0 +:+ cat (map directive replace))]> (fs w))
     (trace w ++ map (fun cmd => EvWrite (Name tmp) (directive cmd)) replace),
   Ok tt).
Proof.
  induction replace as [|cmd replace IH]; intros w d0 H.
  - simpl. unfold ret. destruct w as [m tr]. simpl in *.
    by rewrite app_nil_r, app_empty_r, insert_id.
  - simpl for_each. unfold bind, Sys.WriteString. simpl fs. rewrite H.
    erewrite IH; [|simpl; apply lookup_insert_eq].
    simpl fs. simpl trace. rewrite insert_insert_eq, !map_cons, cat_cons.
    by rewrite <- !app_assoc', <- app_assoc.
Qed.

Lemma appendModReplace_ok path replace w d :
  fs w !! path = Some (Regular d) ->
  appendModReplace path replace w =
  (mkWorld (<[path := Regular (d +:+ cat (map directive replace))]> (fs w))
           (trace w ++ append_events w path d replace),
   Ok tt).
Proof.
  intros Hf.
  pose proof (temp_of_fresh w) as Hfresh.
  assert (temp_of w <> path) as Hne by (apply temp_of_ne; eauto).
  unfold appendModReplace. io_unfold.
  unfold Sys.ReadFile. simpl. rewrite Hf.
  unfold Sys.CreateTemp. simpl. fold (temp_of w).
  unfold Sys.Write, Sys.WriteString at 1. simpl.
  rewrite lookup_insert_eq, insert_insert_eq.
  erewrite append_loop; [|simpl; apply lookup_insert_eq].
  simpl. rewrite insert_insert_eq.
  unfold Sys.Close, Sys.Rename, Sys.Remove. simpl.
  rewrite lookup_insert_eq, (lookup_insert_ne _ _ _ _ Hne), Hf.
  simpl. rewrite app_empty_l, delete_insert_eq, (delete_id _ _ Hfresh).
  rewrite lookup_insert_ne, Hfresh by done. simpl.
  unfold log, append_events; simpl. f_equal. f_equal.
  by rewrite <- !app_assoc.
Qed.

Lemma appendModReplace_fail path replace w :
  (forall d, fs w !! path <> Some (Regular d)) ->
  exists w' err,
    appendModReplace path replace w = (w', Err err) /\ fs w' = fs w.
Proof.
  intros Hno.
  unfold appendModReplace. io_unfold.
  unfold Sys.ReadFile. simpl.
  destruct (fs w !! path) as [[d| |e]|] eqn:Hf; simpl;
    try (by eexists _, _).
  by destruct (Hno d).
Qed.

Lemma appendModReplace_inv path replace w w' :
  appendModReplace path replace w = (w', Ok tt) ->
  exists d, fs w !! path = Some (Regular d).
Proof.
  intros Hrun.
  destruct (fs w !! path) as [[d| |e]|] eqn:Hf; [by exists d|..].
  all: destruct (appendModReplace_fail path replace w) as (? & ? & E & _);
    [intros d0 Hd0; by rewrite Hf in Hd0|congruence].
Qed.

(** *** findMatchesInFile *)

Lemma match_line_spec find line : forall found,
  match_line find found line = found ++ List.filter (hit line) find.
Proof.
  unfold match_line.
  induction find as [|cmd find IH]; intros found; simpl.
  - by rewrite app_nil_r.
  - rewrite IH. unfold hit at 2.
    destruct (Contains line (Find cmd)); [|done].
    by rewrite <- app_assoc.
Qed.

Lemma match_lines_spec find lines : forall found,
  fold_left (match_line find) lines found = found ++ matches find lines.
Proof.
  induction lines as [|line lines IH]; intros found; simpl.
  - by rewrite app_nil_r.
  - by rewrite IH, match_line_spec, <- app_assoc.
Qed.

Lemma findMatchesInFile_ok path find w d :
  fs w !! path = Some (Regular d) ->
  all_fit (raw_lines d) = true ->
  findMatchesInFile path find w =
  (mkWorld (fs w) (trace w ++ [EvOpen path; EvClose path]),
   Ok (matches find (scan_lines d))).
Proof.
  intros Hf Hfit.
  unfold findMatchesInFile. io_unfold.
  unfold Sys.Open. simpl. rewrite Hf.
  unfold Sys.Texts, Sys.ScanErr. simpl. rewrite Hfit.
  unfold ret, Sys.Close, log. simpl.
  by rewrite match_lines_spec, <- app_assoc.
Qed.

Lemma findMatchesInFile_fs path find w :
  fs (findMatchesInFile path find w).1 = fs w.
Proof.
  unfold findMatchesInFile. io_unfold.
  unfold Sys.Open. simpl.
  destruct (fs w !! path) as [[d| |e]|]; simpl; try done.
  - unfold Sys.ScanErr. simpl. by destruct (all_fit (raw_lines d)).
Qed.

Lemma findMatchesInFile_inv path find w w' found :
  findMatchesInFile path find w = (w', Ok found) ->
  exists d, fs w !! path = Some (Regular d) /\
            all_fit (raw_lines d) = true.
Proof.
  unfold findMatchesInFile. io_unfold.
  unfold Sys.Open. simpl.
  destruct (fs w !! path) as [[d| |e]|]; simpl; try done.
  unfold Sys.ScanErr. simpl.
  destruct (all_fit (raw_lines d)) eqn:E; [by exists d|done].
Qed.

(** *** dirExists and validateLocalReposExist *)

Lemma dirExists_run path w :
  dirExists path w = (log (EvStat path) w, dir_status (fs w) path).
Proof.
  unfold dirExists, mbind, IO_bind, bind, attempt, Sys.Stat, dir_status.
  simpl. destruct (fs w !! path) as [[d| |e]|]; try done.
  by destruct e.
Qed.

Lemma validate_loop replace : forall w missing,
  fold_io replace
    (fun missing cmd =>
       r ← attempt (dirExists (Replace cmd));
       match r with
       | Err err => ret (missing ++ [Error err])
       | Ok exists_ =>
           if negb exists_ then ret (missing ++ [Replace cmd])
           else ret missing
       end)
    missing w =
  (mkWorld (fs w)
     (trace w ++ map (fun cmd => EvStat (Replace cmd)) replace),
   Ok (missing ++ omap (offence (fs w)) replace)).
Proof.
  induction replace as [|cmd replace IH]; intros w missing.
  - simpl. unfold ret. destruct w. simpl. by rewrite !app_nil_r.
  - simpl fold_io. unfold bind at 1, mbind, IO_bind, bind, attempt.
    rewrite dirExists_run. simpl omap. unfold offence at 1.
    destruct (dir_status (fs w) (Replace cmd)) as [[|]|err];
      unfold ret; simpl; rewrite IH; simpl;
      by rewrite <- ?app_assoc.
Qed.

Lemma validateLocalReposExist_run replace w :
  validateLocalReposExist replace w =
  (mkWorld (fs w)
     (trace w ++ map (fun cmd => EvStat (Replace cmd)) replace),
   match omap (offence (fs w)) replace with
   | [] => Ok tt
   | missing => Err (missing_error (Join missing LF))
   end).
Proof.
  unfold validateLocalReposExist, mbind, IO_bind. unfold bind at 1.
  rewrite validate_loop. simpl.
  by destruct (omap (offence (fs w)) replace).
Qed.

End Runs.

Section MainRuns.

Variable Unmarshal : string -> result (list FindReplace).

Implicit Types (w : World) (path d : string) (flags : Flags).

Lemma readYamlConfig_fs path w :
  fs (readYamlConfig Unmarshal path w).1 = fs w.
Proof.
  unfold readYamlConfig. io_unfold. unfold Sys.Open, Sys.ReadAll.
  simpl. destruct (fs w !! path) as [[d| |e]|]; simpl; try done.
  by destruct (Unmarshal d).
Qed.

Lemma readYamlConfig_ok path w d find :
  fs w !! path = Some (Regular d) -> Unmarshal d = Ok find ->
  readYamlConfig Unmarshal path w =
  (mkWorld (fs w) (trace w ++ [EvOpen path; EvClose path]), Ok find).
Proof.
  intros Hf Hy.
  unfold readYamlConfig. io_unfold. unfold Sys.Open, Sys.ReadAll.
  simpl. rewrite Hf. simpl. rewrite Hy. unfold ret, log. simpl.
  by rewrite <- app_assoc.
Qed.

(** [main], step by step. *)
Lemma main_strip_failed flags w w1 err :
  deleteLinesWithReplace (goModPath flags) w = (w1, Err err) ->
  main Unmarshal flags w = (w1, Fatal err).
Proof.
  intros H. unfold main, run, mbind, IO_bind. unfold bind at 1.
  by rewrite H.
Qed.

Lemma main_clean flags w w1 :
  clean flags = true ->
  deleteLinesWithReplace (goModPath flags) w = (w1, Ok tt) ->
  main Unmarshal flags w = (w1, Returned).
Proof.
  intros Hc H. unfold main, run, mbind, IO_bind. unfold bind at 1.
  by rewrite H, Hc.
Qed.

Lemma main_pipeline flags w w1 w2 w3 find replace :
  clean flags = false ->
  deleteLinesWithReplace (goModPath flags) w = (w1, Ok tt) ->
  readYamlConfig Unmarshal (goModConfigPath flags) w1 = (w2, Ok find) ->
  findMatchesInFile (goModPath flags) find w2 = (w3, Ok replace) ->
  main Unmarshal flags w =
  match validateLocalReposExist replace w3 with
  | (w4, Ok _) =>
      match appendModReplace (goModPath flags) replace w4 with
      | (w5, Ok _) => (w5, Returned)
      | (w5, Err err) => (w5, Fatal err)
      end
  | (w4, Err err) => (w4, Fatal err)
  end.
Proof.
  intros Hc H1 H2 H3. unfold main, run, mbind, IO_bind.
  unfold bind at 1. rewrite H1, Hc.
  unfold bind at 1. rewrite H2.
  unfold bind at 1. rewrite H3.
  unfold bind at 1.
  destruct (validateLocalReposExist replace w3) as [w4 [[]|err]]; [|done].
  by destruct (appendModReplace (goModPath flags) replace w4) as [w5 [[]|?]].
Qed.

End MainRuns.

(* ===================================================================== *)
(** ** Lists of lines and of rules *)
(* ===================================================================== *)

Section ListFacts.

Implicit Types (find found : list FindReplace) (lines ls : list string).

Lemma matches_app find lines1 lines2 :
  matches find (lines1 ++ lines2) = matches find lines1 ++ matches find lines2.
Proof. apply flat_map_app. Qed.

Lemma matches_nil find lines :
  (forall cmd line, In cmd find -> In line lines -> hit line cmd = false) ->
  matches find lines = [].
Proof.
  intros H. induction lines as [|line lines IH]; [done|]. simpl.
  rewrite IH by (intros; apply H; simpl; auto). rewrite app_nil_r.
  assert (forall cmd, In cmd find -> hit line cmd = false) as Hl
    by (intros; apply H; simpl; auto).
  clear -Hl. induction find as [|cmd find IH]; [done|]. simpl.
  rewrite Hl by (simpl; auto). apply IH. intros. apply Hl. simpl; auto.
Qed.

Lemma count_occ_filter_hit line find r :
  count_occ FindReplace_eq_dec (List.filter (hit line) find) r =
  if hit line r then count_occ FindReplace_eq_dec find r else 0%nat.
Proof.
  induction find as [|cmd find IH]; simpl; [by destruct (hit line r)|].
  destruct (FindReplace_eq_dec cmd r) as [->|Hne].
  - destruct (hit line r) eqn:E; simpl; [|done].
    destruct (FindReplace_eq_dec r r); [|done]. by rewrite IH.
  - destruct (hit line cmd); simpl; [|done].
    by destruct (FindReplace_eq_dec cmd r).
Qed.

(** A rule occurs in the match set as often as it is listed in the
    configuration, for every line that contains its [Find]. *)
Lemma count_occ_matches find lines r :
  count_occ FindReplace_eq_dec (matches find lines) r =
  (count_occ FindReplace_eq_dec find r *
   length (List.filter (fun line => hit line r) lines))%nat.
Proof.
  induction lines as [|line lines IH]; simpl; [lia|].
  rewrite count_occ_app, count_occ_filter_hit, IH.
  destruct (hit line r); simpl; lia.
Qed.

Lemma filter_all {A} (P : A -> bool) (l : list A) :
  (forall x, In x l -> P x = true) -> List.filter P l = l.
Proof.
  induction l as [|x l IH]; intros H; [done|]. simpl.
  rewrite H by (simpl; auto). f_equal. apply IH. intros; apply H; simpl; auto.
Qed.

Lemma filter_same_length {A} (P : A -> bool) (l : list A) :
  length (List.filter P l) = length l -> List.filter P l = l.
Proof.
  induction l as [|x l IH]; [done|]. simpl.
  pose proof (List.filter_length_le P l).
  destruct (P x); simpl; intros E; [f_equal; apply IH; lia|lia].
Qed.

(** The entries of a list that are equal to [r]. *)
Lemma filter_eq_repeat found r :
  List.filter (fun cmd => bool_decide (cmd = r)) found =
  repeat r (count_occ FindReplace_eq_dec found r).
Proof.
  induction found as [|cmd found IH]; [done|]. simpl.
  destruct (FindReplace_eq_dec cmd r) as [->|Hne].
  - rewrite bool_decide_eq_true_2 by done. simpl. by rewrite IH.
  - by rewrite bool_decide_eq_false_2.
Qed.

Lemma map_repeat {A B} (f : A -> B) x n : map f (repeat x n) = repeat (f x) n.
Proof. induction n; simpl; congruence. Qed.

(** [Join] contains each of its elements. *)
Lemma Join_Contains elems sep e :
  In e elems -> Contains (Join elems sep) e = true.
Proof.
  unfold Join. induction elems as [|x elems IH]; [done|].
  intros [->|Hin].
  - destruct elems as [|y elems]; simpl.
    + rewrite <- (app_empty_r e) at 1. apply (Contains_intro "").
    + apply (Contains_intro "").
  - destruct elems as [|y elems]; [done|].
    change (Contains (x +:+ sep +:+ String.concat sep (y :: elems)) e = true).
    by apply Contains_app_r, Contains_app_r, IH.
Qed.

Lemma keep_dropCR l : keep l = true -> keep (dropCR l) = true.
Proof.
  unfold keep, HasPrefix. intros H%negb_true_iff. apply negb_true_iff.
  destruct (String.prefix "replace" (dropCR l)) eqn:E; [|done].
  apply dropCR_prefix in E. congruence.
Qed.

Lemma filter_keep_dropCR ls :
  Forall (fun l => keep l = true) ls ->
  List.filter keep (map dropCR ls) = map dropCR ls.
Proof.
  intros H. apply filter_all. intros x (l & <- & Hl)%in_map_iff.
  apply keep_dropCR. rewrite Forall_forall in H. apply H.
  by apply list_elem_of_In.
Qed.

Lemma filter_keep_Forall ls :
  Forall (fun l => keep l = true) (List.filter keep ls).
Proof.
  apply Forall_forall. intros l Hl%list_elem_of_In.
  by apply filter_In in Hl as [_ ?].
Qed.

Lemma Forall_no_lf_filter (P : string -> bool) ls :
  Forall (fun l => no_lf l = true) ls ->
  Forall (fun l => no_lf l = true) (List.filter P ls).
Proof.
  induction 1 as [|l ls Hl _ IH]; [constructor|]. simpl.
  destruct (P l); [by constructor|done].
Qed.

Lemma Forall_no_lf_dropCR ls :
  Forall (fun l => no_lf l = true) ls ->
  Forall (fun l => no_lf l = true) (map dropCR ls).
Proof.
  induction 1; constructor; [by apply dropCR_no_lf|done].
Qed.

Lemma map_dropCR_id ls :
  map dropCR ls = ls <-> Forall (fun l => last_byte l <> Some cr) ls.
Proof.
  induction ls as [|l ls IH]; simpl; [by split; [constructor|]|].
  split.
  - intros [= Hl Hls]. constructor; [|by apply IH].
    intros Hcr. by apply (dropCR_changes l).
  - intros H. inversion H; subst. f_equal; [by apply dropCR_id|by apply IH].
Qed.

(** The lines that are kept fit, have no line feed, and are kept. *)
Lemma kept_no_lf d :
  Forall (fun l => no_lf l = true) (List.filter keep (scan_lines d)).
Proof. apply Forall_no_lf_filter, scan_lines_no_lf. Qed.

Lemma kept_fit d : all_fit (List.filter keep (scan_lines d)) = true.
Proof. apply all_fit_filter, scan_lines_fits. Qed.

(** The stripped file, cut at its line feeds and read by the scanner. *)
Lemma raw_lines_stripped d :
  raw_lines (stripped d) = List.filter keep (scan_lines d).
Proof. apply raw_lines_unlines, kept_no_lf. Qed.

Lemma all_fit_stripped d : all_fit (raw_lines (stripped d)) = true.
Proof. rewrite raw_lines_stripped. apply kept_fit. Qed.

Lemma scan_lines_stripped d :
  scan_lines (stripped d) = map dropCR (List.filter keep (scan_lines d)).
Proof. apply scan_lines_unlines; [apply kept_no_lf|apply kept_fit]. Qed.

Lemma stripped_stripped d :
  stripped (stripped d) =
  unlines (map dropCR (List.filter keep (scan_lines d))).
Proof.
  unfold stripped at 1. rewrite scan_lines_stripped.
  by rewrite filter_keep_dropCR by apply filter_keep_Forall.
Qed.

Lemma unlines_inj ls1 ls2 :
  Forall (fun l => no_lf l = true) ls1 ->
  Forall (fun l => no_lf l = true) ls2 ->
  unlines ls1 = unlines ls2 -> ls1 = ls2.
Proof.
  intros H1 H2 E. apply (f_equal raw_lines) in E.
  by rewrite !raw_lines_unlines in E.
Qed.

End ListFacts.

(* ===================================================================== *)
(** ** The validator's report *)
(* ===================================================================== *)

Section Validation.

Implicit Types (m : gmap string node) (cmd : FindReplace).

Lemma offence_None m cmd :
  offence m cmd = None <-> m !! Replace cmd = Some Directory.
Proof.
  unfold offence, dir_status.
  destruct (m !! Replace cmd) as [[d| |e]|]; [done|done| |done].
  destruct (IsNotExist _); done.
Qed.

Lemma Contains_refl s : Contains s s = true.
Proof. rewrite <- (app_empty_r s) at 1. apply (Contains_intro ""). Qed.

Lemma offence_names_path m cmd entry :
  offence m cmd = Some entry -> Contains entry (Replace cmd) = true.
Proof.
  unfold offence.
  destruct (dir_status m (Replace cmd)) as [[|]|err] eqn:E; [done|..].
  - intros [= <-]. apply Contains_refl.
  - intros [= <-]. unfold dir_status in E.
    destruct (m !! Replace cmd) as [[d| |e]|]; try done.
    destruct (IsNotExist _); [done|]. injection E as <-.
    apply Contains_app_r, Contains_app_r, (Contains_intro "").
Qed.

Lemma offence_In m cmd entry replace :
  In cmd replace -> offence m cmd = Some entry ->
  In entry (omap (offence m) replace).
Proof.
  intros Hin Ho. apply list_elem_of_In, list_elem_of_omap.
  exists cmd. split; [by apply list_elem_of_In|done].
Qed.

Lemma omap_offence_nil m replace :
  omap (offence m) replace = [] <->
  Forall (fun cmd => m !! Replace cmd = Some Directory) replace.
Proof.
  induction replace as [|cmd replace IH]; simpl; [by split; [constructor|]|].
  destruct (offence m cmd) as [entry|] eqn:E.
  - split; [done|]. intros H. inversion H as [|?? Hd _]; subst.
    apply offence_None in Hd. congruence.
  - apply offence_None in E. rewrite IH. split; [by constructor|].
    by inversion 1.
Qed.

Lemma Error_missing_error s :
  Error (missing_error s) =
  "replace module error(s) or missing:" +:+ LF +:+ s.
Proof. reflexivity. Qed.

Lemma omap_offence_cons m replace :
  omap (offence m) replace <> [] ->
  Exists (fun cmd => m !! Replace cmd <> Some Directory) replace.
Proof.
  induction replace as [|cmd replace IH]; simpl; [done|].
  destruct (offence m cmd) as [entry|] eqn:E.
  - intros _. apply Exists_cons_hd. intros Hd%offence_None. congruence.
  - intros H. apply Exists_cons_tl. by apply IH.
Qed.

(** The text of the combined error contains every offending path. *)
Lemma missing_error_names_path m replace cmd entry :
  In cmd replace -> offence m cmd = Some entry ->
  Contains (Error (missing_error (Join (omap (offence m) replace) LF)))
           (Replace cmd) = true.
Proof.
  intros Hin Ho.
  pose proof (offence_In _ _ _ _ Hin Ho) as Hentry.
  pose proof (offence_names_path _ _ _ Ho) as (s1 & s2 & ->)%Contains_elim.
  rewrite Error_missing_error. apply Contains_app_r, Contains_app_r.
  apply (Join_Contains _ LF) in Hentry as (t1 & t2 & ->)%Contains_elim.
  rewrite !app_assoc', <- (app_assoc' t1 s1). apply Contains_intro.
Qed.

(** One offending entry makes the validation fail. *)
Lemma validate_offender replace w cmd :
  In cmd replace -> fs w !! Replace cmd <> Some Directory ->
  exists err,
    validateLocalReposExist replace w =
    (mkWorld (fs w)
       (trace w ++ map (fun c => EvStat (Replace c)) replace),
     Err err) /\
    Contains (Error err) (Replace cmd) = true.
Proof.
  intros Hin Hnd. rewrite validateLocalReposExist_run.
  destruct (offence (fs w) cmd) as [entry|] eqn:Ho;
    [|by apply offence_None in Ho].
  pose proof (missing_error_names_path _ _ _ _ Hin Ho) as Hc.
  pose proof (offence_In _ _ _ _ Hin Ho) as Hentry.
  destruct (omap (offence (fs w)) replace) as [|e0 missing]; [done|].
  by eexists.
Qed.

End Validation.

(* ===================================================================== *)
(** ** Line ends *)
(* ===================================================================== *)

Section LineEnds.

Implicit Types (s t pre post l d : string) (ls : list string).

Lemma last_byte_cons c s : s <> "" -> last_byte (String c s) = last_byte s.
Proof. by destruct s. Qed.

Lemma last_byte_app_r s t : t <> "" -> last_byte (s +:+ t) = last_byte t.
Proof.
  intros Ht. induction s as [|c s IH]; [done|].
  rewrite app_cons, last_byte_cons; [done|]. by destruct s, t.
Qed.

Lemma no_lf_last_byte l : no_lf l = true -> last_byte l <> Some lf.
Proof.
  induction l as [|c l IH]; [done|]. simpl.
  intros [Hc Hl]%andb_true_iff. destruct l as [|c' l]; [|by apply IH].
  intros [= ->]. by rewrite (Ascii.eqb_refl lf) in Hc.
Qed.

Lemma raw_lines_app_lf pre rest :
  ends_line pre -> raw_lines (pre +:+ rest) = raw_lines pre ++ raw_lines rest.
Proof.
  induction pre as [|c pre IH]; intros Hpre; [done|].
  assert (ends_line pre) as Hpre'.
  { destruct Hpre as [|Hpre]; [done|].
    destruct pre as [|c' pre]; [by left|right]. by rewrite <- Hpre. }
  rewrite app_cons, !raw_lines_cons, (IH Hpre').
  destruct (Ascii.eqb c lf) eqn:Ec; [done|].
  destruct (raw_lines pre) as [|l ls] eqn:E; [|done].
  apply raw_lines_nil in E as ->. destruct Hpre as [|[= ->]]; [done|].
  by rewrite (Ascii.eqb_refl lf) in Ec.
Qed.

Lemma ends_line_app_LF s : ends_line (s +:+ LF).
Proof. right. apply last_byte_app. Qed.

Lemma tokens_of_app raws1 raws2 :
  all_fit raws1 = true ->
  tokens_of (raws1 ++ raws2) = tokens_of raws1 ++ tokens_of raws2.
Proof.
  induction raws1 as [|r raws1 IH]; [done|]. simpl.
  intros [-> H]%andb_true_iff. by rewrite IH.
Qed.

Lemma all_fit_app raws1 raws2 :
  all_fit (raws1 ++ raws2) = all_fit raws1 && all_fit raws2.
Proof. apply forallb_app. Qed.

Lemma stripped_app pre rest :
  ends_line pre -> all_fit (raw_lines pre) = true ->
  stripped (pre +:+ rest) = stripped pre +:+ stripped rest.
Proof.
  intros Hpre Hfit. unfold stripped, scan_lines.
  rewrite raw_lines_app_lf, tokens_of_app by done.
  by rewrite List.filter_app, unlines_app.
Qed.

(** A last line without line feed. *)
Lemma stripped_last_line l :
  l <> "" -> no_lf l = true -> keep l = true -> fits l = true ->
  last_byte l <> Some cr ->
  stripped l = l +:+ LF.
Proof.
  intros Hne Hlf Hk Hfit Hcr. unfold stripped, scan_lines.
  rewrite raw_lines_last by done. simpl. rewrite Hfit, dropCR_id by done.
  simpl. rewrite Hk, unlines_cons. change (unlines []) with "".
  by rewrite app_empty_r.
Qed.

(** A line that ends with carriage return and line feed. *)
Lemma raw_lines_crlf l :
  no_lf l = true -> raw_lines (l +:+ CR +:+ LF) = [l +:+ CR].
Proof.
  intros Hlf. rewrite <- app_assoc', <- (app_empty_r LF), <- app_assoc'.
  rewrite app_assoc', raw_lines_line; [done|].
  by rewrite no_lf_app, Hlf.
Qed.

Lemma stripped_crlf l :
  no_lf l = true -> keep l = true -> fits (l +:+ CR) = true ->
  stripped (l +:+ CR +:+ LF) = l +:+ LF.
Proof.
  intros Hlf Hk Hfit. unfold stripped, scan_lines.
  rewrite raw_lines_crlf by done. simpl. rewrite Hfit, dropCR_cr.
  simpl. rewrite Hk, unlines_cons. change (unlines []) with "".
  by rewrite app_empty_r.
Qed.

(** A file that the stripper leaves as it is has no line that ends with
    a carriage return. *)
Lemma stripped_fixpoint d :
  all_fit (raw_lines d) = true -> stripped d = d ->
  Forall (fun l => last_byte l <> Some cr) (raw_lines d).
Proof.
  intros Hfit E. apply (f_equal raw_lines) in E.
  rewrite raw_lines_stripped in E. unfold scan_lines in E.
  rewrite tokens_of_all_fit in E by done.
  apply map_dropCR_id. rewrite <- E at 2. symmetry.
  apply filter_same_length. rewrite E. by rewrite length_map.
Qed.

End LineEnds.

(* ===================================================================== *)
(** ** The steps of the whole program *)
(* ===================================================================== *)

Section Pipeline.

Variable Unmarshal : string -> result (list FindReplace).

Implicit Types (w : World) (flags : Flags) (path d : string).

Lemma readYamlConfig_trace path w :
  exists evs,
    trace (readYamlConfig Unmarshal path w).1 = trace w ++ evs /\
    forallb inspects evs = true.
Proof.
  unfold readYamlConfig. io_unfold. unfold Sys.Open, Sys.ReadAll.
  simpl. destruct (fs w !! path) as [[d| |e]|]; simpl;
    try (by exists [EvOpen path]);
    try (exists [EvOpen path; EvClose path]; by rewrite <- app_assoc).
  exists [EvOpen path; EvClose path].
  destruct (Unmarshal d); simpl; by rewrite <- app_assoc.
Qed.

Lemma findMatchesInFile_trace path find w :
  exists evs,
    trace (findMatchesInFile path find w).1 = trace w ++ evs /\
    forallb inspects evs = true.
Proof.
  unfold findMatchesInFile. io_unfold. unfold Sys.Open.
  simpl. destruct (fs w !! path) as [[d| |e]|]; simpl;
    try (by exists [EvOpen path]);
    try (exists [EvOpen path; EvClose path]; by rewrite <- app_assoc).
  exists [EvOpen path; EvClose path]. unfold Sys.ScanErr. simpl.
  destruct (all_fit (raw_lines d)); simpl; by rewrite <- app_assoc.
Qed.

Lemma forallb_inspects_stat (replace : list FindReplace) :
  forallb inspects (map (fun cmd => EvStat (Replace cmd)) replace) = true.
Proof. by induction replace. Qed.

(** Stripping leaves directories directories and makes none. *)
Lemma strip_keeps_directories path w w1 p :
  deleteLinesWithReplace path w = (w1, Ok tt) ->
  fs w1 !! p = Some Directory <-> fs w !! p = Some Directory.
Proof.
  intros Hrun.
  destruct (deleteLinesWithReplace_inv _ _ _ Hrun) as (d & Hf & Hfit).
  rewrite (deleteLinesWithReplace_ok _ _ _ Hf Hfit) in Hrun.
  injection Hrun as <-. simpl.
  destruct (decide (path = p)) as [<-|Hne].
  - rewrite lookup_insert_eq, Hf. split; congruence.
  - by rewrite lookup_insert_ne.
Qed.

Lemma strip_events_no_read path w d other :
  other <> path ->
  forall ev, In ev (strip_events w path d) ->
             ev <> EvOpen other /\ ev <> EvReadFile other.
Proof.
  intros Hne ev Hin. unfold strip_events in Hin.
  apply in_app_iff in Hin as [Hin|Hin];
    [|apply in_app_iff in Hin as [Hin|Hin]].
  - simpl in Hin. destruct Hin as [<-|[<-|[]]]; split; congruence.
  - apply in_map_iff in Hin as (l & <- & _). split; congruence.
  - simpl in Hin.
    repeat (destruct Hin as [<-|Hin]; [split; congruence|]). done.
Qed.

End Pipeline.

(* ===================================================================== *)
(** ** Outcomes: what each function returns and what it leaves unchanged *)
(* ===================================================================== *)

Section Outcomes.

Implicit Types (w : World) (path d : string) (find replace : list FindReplace).


Lemma deleteLinesWithReplace_err_fs path w w' err :
  deleteLinesWithReplace path w = (w', Err err) -> fs w' = fs w.
Proof.
  intros Hrun.
  destruct (deleteLinesWithReplace_fail path w) as (w1 & e1 & E & Hfs).
  - intros d Hf. destruct (all_fit (raw_lines d)) eqn:Hfit; [|done].
    rewrite (deleteLinesWithReplace_ok _ _ _ Hf Hfit) in Hrun. done.
  - rewrite E in Hrun. by injection Hrun as <- _.
Qed.

Lemma only_changes_refl path m : only_changes path m m.
Proof. by split. Qed.

Lemma only_changes_eq path m m' : m' = m -> only_changes path m m'.
Proof. intros ->. apply only_changes_refl. Qed.

Lemma only_changes_trans path m1 m2 m3 :
  only_changes path m1 m2 -> only_changes path m2 m3 ->
  only_changes path m1 m3.
Proof.
  intros [Hd1 H1] [Hd2 H2]. split; [congruence|].
  intros q Hq. by rewrite H2, H1.
Qed.

Lemma only_changes_insert path m (x : node) :
  is_Some (m !! path) -> only_changes path m (<[path := x]> m).
Proof.
  intros Hs. split.
  - by apply dom_insert_lookup_L.
  - intros q Hq. by rewrite lookup_insert_ne.
Qed.

Lemma deleteLinesWithReplace_only_changes path w :
  only_changes path (fs w) (fs (deleteLinesWithReplace path w).1).
Proof.
  destruct (deleteLinesWithReplace path w) as [w' [[]|err]] eqn:Hrun.
  - destruct (deleteLinesWithReplace_inv _ _ _ Hrun) as (d & Hf & Hfit).
    rewrite (deleteLinesWithReplace_ok _ _ _ Hf Hfit) in Hrun.
    injection Hrun as <-. simpl. apply only_changes_insert. eauto.
  - apply only_changes_eq. simpl. by eapply deleteLinesWithReplace_err_fs.
Qed.


Lemma appendModReplace_err_fs path replace w w' err :
  appendModReplace path replace w = (w', Err err) -> fs w' = fs w.
Proof.
  intros Hrun.
  destruct (appendModReplace_fail path replace w) as (w1 & e1 & E & Hfs).
  - intros d Hf. by rewrite (appendModReplace_ok _ _ _ _ Hf) in Hrun.
  - rewrite E in Hrun. by injection Hrun as <- _.
Qed.

Lemma appendModReplace_only_changes path replace w :
  only_changes path (fs w) (fs (appendModReplace path replace w).1).
Proof.
  destruct (appendModReplace path replace w) as [w' [[]|err]] eqn:Hrun.
  - destruct (appendModReplace_inv _ _ _ _ Hrun) as (d & Hf).
    rewrite (appendModReplace_ok _ _ _ _ Hf) in Hrun.
    injection Hrun as <-. simpl. apply only_changes_insert. eauto.
  - apply only_changes_eq. simpl. by eapply appendModReplace_err_fs.
Qed.

(** What [findMatchesInFile] returns, read off the manifest. *)
Lemma findMatchesInFile_result path find w :
  (findMatchesInFile path find w).2 =
  match fs w !! path with
  | Some (Regular d) =>
      if all_fit (raw_lines d) then Ok (matches find (scan_lines d))
      else Err ErrTooLong
  | Some Directory => Err (PathError "read" path EISDIR)
  | Some (Unreachable e) => Err (PathError "open" path e)
  | None => Err (PathError "open" path ENOENT)
  end.
Proof.
  destruct (fs w !! path) as [[d| |e]|] eqn:Hf.
  1: destruct (all_fit (raw_lines d)) eqn:Hfit;
       [by rewrite (findMatchesInFile_ok _ _ _ _ Hf Hfit)|].
  all: unfold findMatchesInFile; io_unfold; unfold Sys.Open; simpl;
    rewrite Hf; simpl; try done.
  unfold Sys.ScanErr. simpl. by rewrite Hfit.
Qed.

Lemma validateLocalReposExist_fs replace w :
  fs (validateLocalReposExist replace w).1 = fs w.
Proof. by rewrite validateLocalReposExist_run. Qed.

End Outcomes.

Section MainOutcomes.

Variable Unmarshal : string -> result (list FindReplace).

Implicit Types (w : World) (flags : Flags) (path d : string).

(** What [readYamlConfig] returns, read off the configuration file. *)
Lemma readYamlConfig_result path w :
  (readYamlConfig Unmarshal path w).2 =
  match fs w !! path with
  | Some (Regular d) => Unmarshal d
  | Some Directory => Err (PathError "read" path EISDIR)
  | Some (Unreachable e) => Err (PathError "open" path e)
  | None => Err (PathError "open" path ENOENT)
  end.
Proof.
  unfold readYamlConfig. io_unfold. unfold Sys.Open, Sys.ReadAll.
  simpl. destruct (fs w !! path) as [[d| |e]|]; simpl; try done.
  by destruct (Unmarshal d).
Qed.

(** The file system after [main], step by step. *)
Lemma run_only_changes flags w :
  only_changes (goModPath flags) (fs w) (fs (run Unmarshal flags w).1).
Proof.
  unfold run, mbind, IO_bind. unfold bind at 1.
  pose proof (deleteLinesWithReplace_only_changes (goModPath flags) w) as H1.
  destruct (deleteLinesWithReplace (goModPath flags) w) as [w1 [[]|?]];
    [|done].
  destruct (clean flags); [done|]. unfold bind at 1.
  pose proof (readYamlConfig_fs Unmarshal (goModConfigPath flags) w1) as H2.
  destruct (readYamlConfig Unmarshal (goModConfigPath flags) w1)
    as [w2 [find|?]]; simpl in *; [|by rewrite H2].
  unfold bind at 1.
  pose proof (findMatchesInFile_fs (goModPath flags) find w2) as H3.
  destruct (findMatchesInFile (goModPath flags) find w2)
    as [w3 [replace|?]]; simpl in *; [|by rewrite H3, H2].
  unfold bind at 1.
  pose proof (validateLocalReposExist_fs replace w3) as H4.
  destruct (validateLocalReposExist replace w3) as [w4 [[]|?]];
    simpl in *; [|by rewrite H4, H3, H2].
  pose proof (appendModReplace_only_changes (goModPath flags) replace w4) as H5.
  rewrite H4, H3, H2 in H5. by eapply only_changes_trans.
Qed.

End MainOutcomes.

(* ===================================================================== *)
(** ** Directives as lines *)
(* ===================================================================== *)

Section Directives.

Implicit Types (s t d : string) (cmd : FindReplace) (replace : list FindReplace).

Lemma directive_eq cmd : directive cmd = directive_line cmd +:+ LF.
Proof. unfold directive, directive_line. by rewrite !app_assoc'. Qed.

Lemma cat_map_directive replace :
  cat (map directive replace) = unlines (map directive_line replace).
Proof.
  unfold unlines. rewrite map_map. f_equal. apply map_ext.
  intros cmd. apply directive_eq.
Qed.

Lemma drop_last_app_r s t : t <> "" -> drop_last (s +:+ t) = s +:+ drop_last t.
Proof.
  intros Ht. induction s as [|c s IH]; [done|].
  rewrite !app_cons. simpl. rewrite IH.
  destruct (s +:+ t) eqn:E; [|done]. by destruct s, t.
Qed.

Lemma dropCR_app_r s t : t <> "" -> dropCR (s +:+ t) = s +:+ dropCR t.
Proof.
  intros Ht. unfold dropCR. rewrite last_byte_app_r by done.
  destruct (last_byte t) as [c|]; [|done].
  destruct (Ascii.eqb c cr); [|done]. by apply drop_last_app_r.
Qed.

(** A directive is not kept by the stripper. *)
Lemma keep_directive_line cmd : keep (dropCR (directive_line cmd)) = false.
Proof.
  unfold keep, HasPrefix, directive_line. apply negb_false_iff.
  change ("replace " +:+ Find cmd +:+ " => " +:+ Replace cmd)
    with ("replace" +:+ String " " (Find cmd +:+ " => " +:+ Replace cmd)).
  rewrite dropCR_app_r by done. apply prefix_app.
Qed.

Lemma no_lf_directive_line cmd :
  no_lf (Find cmd) = true -> no_lf (Replace cmd) = true ->
  no_lf (directive_line cmd) = true.
Proof.
  intros Hf Hr. unfold directive_line. by rewrite !no_lf_app, Hf, Hr.
Qed.

Lemma one_line_no_lf replace :
  Forall one_line replace ->
  Forall (fun l => no_lf l = true) (map directive_line replace).
Proof.
  induction 1 as [|cmd replace (Hf & Hr & _) _ IH]; constructor; [|done].
  by apply no_lf_directive_line.
Qed.

Lemma one_line_fit replace :
  Forall one_line replace -> all_fit (map directive_line replace) = true.
Proof.
  induction 1 as [|cmd replace (_ & _ & Hfit) _ IH]; [done|]. simpl.
  by rewrite Hfit.
Qed.

Lemma filter_keep_directives replace :
  List.filter keep (map dropCR (map directive_line replace)) = [].
Proof.
  induction replace as [|cmd replace IH]; [done|]. simpl.
  by rewrite keep_directive_line.
Qed.

(** The stripper removes every directive that the appender writes. *)
Lemma stripped_directives replace :
  Forall one_line replace -> stripped (cat (map directive replace)) = "".
Proof.
  intros H. unfold stripped. rewrite cat_map_directive.
  rewrite scan_lines_unlines;
    [|by apply one_line_no_lf|by apply one_line_fit].
  by rewrite filter_keep_directives.
Qed.

Lemma raw_lines_directives d replace :
  ends_line d -> Forall one_line replace ->
  raw_lines (d +:+ cat (map directive replace)) =
  raw_lines d ++ map directive_line replace.
Proof.
  intros Hd H. rewrite raw_lines_app_lf by done. f_equal.
  rewrite cat_map_directive. by apply raw_lines_unlines, one_line_no_lf.
Qed.

Lemma ends_line_unlines (ls : list string) : ends_line (unlines ls).
Proof.
  induction ls as [|l ls IH] using rev_ind; [by left|].
  rewrite unlines_app, unlines_cons. change (unlines []) with "".
  rewrite app_empty_r, <- app_assoc'. apply ends_line_app_LF.
Qed.

Lemma ends_line_stripped d : ends_line (stripped d).
Proof. apply ends_line_unlines. Qed.

(** A string that occurs in a line without line feed has none. *)
Lemma Contains_no_lf line sub :
  Contains line sub = true -> no_lf line = true -> no_lf sub = true.
Proof.
  intros (s1 & s2 & ->)%Contains_elim. rewrite !no_lf_app.
  intros [_ H]%andb_true_iff. by apply andb_true_iff in H as [? _].
Qed.

End Directives.

(* ===================================================================== *)
(** ** The run in which every step succeeds *)
(* ===================================================================== *)

Section Success.

Variable Unmarshal : string -> result (list FindReplace).

Implicit Types (w : World) (flags : Flags) (d y : string).

(** The run of [main] without [-clean] when every step succeeds. *)
Lemma main_success flags w d y find :
  clean flags = false ->
  fs w !! goModPath flags = Some (Regular d) ->
  all_fit (raw_lines d) = true ->
  goModConfigPath flags <> goModPath flags ->
  fs w !! goModConfigPath flags = Some (Regular y) ->
  Unmarshal y = Ok find ->
  Forall (fun cmd => fs w !! Replace cmd = Some Directory)
         (matches find (scan_lines (stripped d))) ->
  exists w',
    main Unmarshal flags w = (w', Returned) /\
    fs w' =
      <[goModPath flags :=
          Regular
            (stripped d +:+
             cat (map directive (matches find (scan_lines (stripped d)))))]>
        (fs w).
Proof.
  intros Hc Hf Hfit Hne Hy Hu Hdirs.
  pose proof (deleteLinesWithReplace_ok _ _ _ Hf Hfit) as H1.
  set (w1 := mkWorld (<[goModPath flags := Regular (stripped d)]> (fs w))
                     (trace w ++ strip_events w (goModPath flags) d)) in *.
  assert (fs w1 !! goModConfigPath flags = Some (Regular y)) as Hy1
    by (simpl; by rewrite lookup_insert_ne).
  pose proof (readYamlConfig_ok Unmarshal _ _ _ _ Hy1 Hu) as H2.
  set (w2 := mkWorld (fs w1) _) in H2.
  assert (fs w2 !! goModPath flags = Some (Regular (stripped d))) as Hf2
    by (simpl; apply lookup_insert_eq).
  pose proof (findMatchesInFile_ok _ find _ _ Hf2 (all_fit_stripped d)) as H3.
  set (w3 := mkWorld (fs w2) _) in H3.
  rewrite (main_pipeline Unmarshal flags w w1 w2 w3 _ _ Hc H1 H2 H3).
  rewrite validateLocalReposExist_run.
  assert (omap (offence (fs w3)) (matches find (scan_lines (stripped d))) = [])
    as ->.
  { apply omap_offence_nil. eapply Forall_impl; [exact Hdirs|].
    intros cmd Hd. simpl in *. rewrite lookup_insert_ne; [done|].
    intros E. rewrite <- E, Hf in Hd. done. }
  rewrite (appendModReplace_ok _ _ _ (stripped d)) by exact Hf2.
  eexists. split; [done|]. simpl. by rewrite insert_insert_eq.
Qed.

End Success.

(* ===================================================================== *)
(** ** The program on examples *)
(* ===================================================================== *)

(** The first scenario of the specification: the old directive is removed
    and the new one is appended. *)
Example scenario_success :
  let '(w', e) := main scenario_yaml (scenario_flags false) (scenario_world true) in
  e = Returned /\
  fs w' !! "go.mod" =
    Some (Regular ("require foo/bar v1.0.0" +:+ LF +:+
                   "replace foo/bar => ../local/bar" +:+ LF)).
Proof. by vm_compute. Qed.

(** A missing path, a path that cannot be examined and a regular file are
    reported together; the directory is not. *)
Example validate_reports_every_offence :
  let w :=
    mkWorld
      {[ "../local/bar" := Directory;
         "../local/file" := Regular "x";
         "/root/secret" := Unreachable EACCES ]} [] in
  (validateLocalReposExist
     [mkFindReplace "a" "../local/gone";
      mkFindReplace "b" "../local/bar";
      mkFindReplace "c" "/root/secret";
      mkFindReplace "d" "../local/file"] w).2 =
  Err (ErrorString
         ("replace module error(s) or missing:" +:+ LF +:+
          "../local/gone" +:+ LF +:+
          "stat /root/secret: permission denied" +:+ LF +:+
          "../local/file")).
Proof. reflexivity. Qed.

(** A line of [MaxScanTokenSize] bytes does not fit; one byte less fits. *)
Example fits_limit (l : string) :
  (Z.of_nat (String.length l) = 65536%Z -> fits l = false) /\
  (Z.of_nat (String.length l) = 65535%Z -> fits l = true).
Proof. unfold fits. split; by intros ->. Qed.

(** Without a manifest the program ends in [log.Fatal] at once. *)
Example no_manifest :
  (main scenario_yaml (scenario_flags true) (mkWorld ∅ [])).2 =
  Fatal (PathError "open" "go.mod" ENOENT) /\
  Error (PathError "open" "go.mod" ENOENT) =
  "open go.mod: no such file or directory".
Proof. by vm_compute. Qed.

(* ===================================================================== *)
(** ** The properties of the specification *)
(* ===================================================================== *)

(** C1. Matcher. On a manifest that can be read, [findMatchesInFile]
    returns the match set built line by line (outer loop) and, within a
    line, rule by rule in configuration order (inner loop): the entry of
    the configuration is in the group of a line exactly when the line
    contains its find-string. Hence a rule is in the match set once per
    line that contains its find-string, for each time the configuration
    lists it, and not at all if no line contains it. *)
Theorem C1_match_set_grouped_by_line path find w d :
  fs w !! path = Some (Regular d) ->
  all_fit (raw_lines d) = true ->
  exists w' found,
    findMatchesInFile path find w = (w', Ok found) /\
    fs w' = fs w /\
    found =
      flat_map
        (fun line =>
           List.filter (fun cmd => Contains line (Find cmd)) find)
        (scan_lines d) /\
    (forall lines1 line lines2,
       scan_lines d = lines1 ++ line :: lines2 ->
       found =
         matches find lines1 ++
         List.filter (fun cmd => Contains line (Find cmd)) find ++
         matches find lines2) /\
    (forall r,
       count_occ FindReplace_eq_dec found r =
       (count_occ FindReplace_eq_dec find r *
        length
          (List.filter (fun line => Contains line (Find r)) (scan_lines d)))%nat) /\
    (forall line r,
       Contains line (Find r) = true <->
       exists s1 s2, line = s1 +:+ Find r +:+ s2).
Proof.
  intros Hf Hfit. eexists _, _.
  split; [by apply findMatchesInFile_ok|].
  split; [done|]. split; [done|]. split; [|split].
  - intros lines1 line lines2 ->. by rewrite matches_app.
  - intros r. apply count_occ_matches.
  - intros line r. apply Contains_spec.
Qed.

(** C1 on a manifest of three lines: the second rule is found in all of
    them, the first in two, the third in none. *)
Lemma C1_witness :
  (findMatchesInFile "go.mod" C1_rules C1_world).2 =
  Ok [mkFindReplace "foo/bar" "../local/bar";
      mkFindReplace "foo/" "../local/foo";
      mkFindReplace "foo/" "../local/foo";
      mkFindReplace "foo/bar" "../local/bar";
      mkFindReplace "foo/" "../local/foo"].
Proof.
  destruct (C1_match_set_grouped_by_line "go.mod" C1_rules C1_world
              ("require foo/bar v1.0.0" +:+ LF +:+
               "require foo/baz v1.2.0" +:+ LF +:+
               "// foo/bar is patched" +:+ LF))
    as (w' & found & -> & _ & -> & _); [reflexivity|reflexivity|reflexivity].
Defined.

(** C2, as stated, fails: the scanner reads the line [a CR] from the
    manifest [a CR CR LF]; the stripper writes [a CR LF], and the line of
    that manifest is [a]. *)
Lemma C2_counterexample :
  exists w' new,
    deleteLinesWithReplace "go.mod" stray_cr_world = (w', Ok tt) /\
    fs w' !! "go.mod" = Some (Regular new) /\
    new = "a" +:+ CR +:+ LF /\
    scan_lines ("a" +:+ CR +:+ CR +:+ LF) = ["a" +:+ CR] /\
    scan_lines new = ["a"] /\
    scan_lines new <>
    List.filter (fun line => negb (HasPrefix line "replace"))
      (scan_lines ("a" +:+ CR +:+ CR +:+ LF)).
Proof.
  eexists _, _. split; [by apply deleteLinesWithReplace_ok|].
  split; [apply lookup_insert_eq|]. by vm_compute.
Qed.

(** C2, amended. Stripper. When [deleteLinesWithReplace] succeeds, the
    manifest consists of the lines that the scanner read from the original
    (each without its line feed and without one carriage return before it)
    and that do not start with [replace], in their order, each followed by
    one line feed. Cut at its line feeds the manifest is exactly these
    lines; read by the scanner it is these lines without one more trailing
    carriage return, hence exactly these lines if none of them ends with a
    carriage return. No line of the manifest starts with [replace]. *)
Theorem C2_stripper_keeps_other_lines path w w' :
  deleteLinesWithReplace path w = (w', Ok tt) ->
  exists d kept,
    fs w !! path = Some (Regular d) /\
    kept =
      List.filter (fun line => negb (HasPrefix line "replace")) (scan_lines d) /\
    fs w' !! path = Some (Regular (cat (map (fun l => l +:+ LF) kept))) /\
    raw_lines (unlines kept) = kept /\
    scan_lines (unlines kept) = map dropCR kept /\
    (Forall (fun l => last_byte l <> Some cr) kept ->
     scan_lines (unlines kept) = kept) /\
    Forall (fun l => HasPrefix l "replace" = false) (raw_lines (unlines kept)) /\
    Forall (fun l => HasPrefix l "replace" = false) (scan_lines (unlines kept)).
Proof.
  intros Hrun.
  destruct (deleteLinesWithReplace_inv _ _ _ Hrun) as (d & Hf & Hfit).
  rewrite (deleteLinesWithReplace_ok _ _ _ Hf Hfit) in Hrun.
  injection Hrun as <-.
  exists d, (List.filter keep (scan_lines d)).
  split; [done|]. split; [done|]. split; [apply lookup_insert_eq|].
  fold (stripped d). rewrite raw_lines_stripped, scan_lines_stripped.
  split; [done|]. split; [done|]. split; [by intros ?%map_dropCR_id|].
  pose proof (filter_keep_Forall (scan_lines d)) as Hk.
  split.
  - eapply Forall_impl; [exact Hk|]. intros l. unfold keep.
    by intros ?%negb_true_iff.
  - rewrite <- filter_keep_dropCR by done.
    eapply Forall_impl; [apply filter_keep_Forall|]. intros l. unfold keep.
    by intros ?%negb_true_iff.
Qed.

(** C2 on a manifest with a directive between two other lines. *)
Lemma C2_witness :
  exists w',
    deleteLinesWithReplace "go.mod" C2_world = (w', Ok tt) /\
    fs w' !! "go.mod" =
      Some (Regular ("require foo/bar v1.0.0" +:+ LF +:+ "go 1.21" +:+ LF)).
Proof.
  assert (deleteLinesWithReplace "go.mod" C2_world =
          ((deleteLinesWithReplace "go.mod" C2_world).1, Ok tt)) as Hrun
    by reflexivity.
  destruct (C2_stripper_keeps_other_lines _ _ _ Hrun)
    as (d & kept & Hd & -> & Hfs & _).
  eexists. split; [exact Hrun|]. rewrite Hfs.
  injection Hd as <-. reflexivity.
Defined.

(** C3. Appender. On a manifest with content [d], [appendModReplace]
    succeeds and leaves the bytes of [d] followed by one line
    [replace <find> => <replace>] with its line feed for every entry of the
    match set, in the order of the match set; no other file changes. *)
Theorem C3_append_is_additive path replace w d :
  fs w !! path = Some (Regular d) ->
  exists w',
    appendModReplace path replace w = (w', Ok tt) /\
    fs w' =
      <[path :=
          Regular
            (d +:+
             cat (map (fun cmd =>
                         "replace " +:+ Find cmd +:+ " => " +:+
                         Replace cmd +:+ LF)
                      replace))]> (fs w) /\
    length (map directive replace) = length replace.
Proof.
  intros Hf. eexists. split; [by apply appendModReplace_ok|].
  split; [done|]. apply length_map.
Qed.

(** C3 on a manifest of one line and a match set of two rules. *)
Lemma C3_witness :
  exists w',
    appendModReplace "go.mod"
      [mkFindReplace "foo/bar" "../local/bar"; mkFindReplace "foo" "../f"]
      C3_world = (w', Ok tt) /\
    fs w' !! "go.mod" =
      Some (Regular ("require foo/bar v1.0.0" +:+ LF +:+
                     "replace foo/bar => ../local/bar" +:+ LF +:+
                     "replace foo => ../f" +:+ LF)).
Proof.
  destruct (C3_append_is_additive "go.mod"
              [mkFindReplace "foo/bar" "../local/bar";
               mkFindReplace "foo" "../f"]
              C3_world ("require foo/bar v1.0.0" +:+ LF))
    as (w' & Hrun & Hfs & _); [reflexivity|].
  exists w'. split; [exact Hrun|]. rewrite Hfs. reflexivity.
Defined.

(** C4. Validator. [validateLocalReposExist] examines the replace path of
    every matched rule. It returns [nil] exactly when each of them is a
    directory. Otherwise it returns one error whose text is the heading
    followed by the offences joined by line feeds: one offence for every
    entry whose path is missing, is not a directory or cannot be examined,
    in the order of the match set, each one the path itself or the text of
    the [stat] error; every offending path occurs in the text. *)
Theorem C4_validation_aggregates replace w :
  exists w',
    fs w' = fs w /\
    trace w' = trace w ++ map (fun cmd => EvStat (Replace cmd)) replace /\
    ((validateLocalReposExist replace w = (w', Ok tt) /\
      Forall (fun cmd => fs w !! Replace cmd = Some Directory) replace)
     \/
     (exists err,
        validateLocalReposExist replace w = (w', Err err) /\
        Exists (fun cmd => fs w !! Replace cmd <> Some Directory) replace /\
        Error err =
          "replace module error(s) or missing:" +:+ LF +:+
          Join (omap (offence (fs w)) replace) LF /\
        (forall cmd,
           offence (fs w) cmd = None <->
           fs w !! Replace cmd = Some Directory) /\
        (forall cmd,
           In cmd replace ->
           fs w !! Replace cmd <> Some Directory ->
           exists entry,
             offence (fs w) cmd = Some entry /\
             In entry (omap (offence (fs w)) replace) /\
             Contains entry (Replace cmd) = true /\
             Contains (Error err) (Replace cmd) = true))).
Proof.
  exists (mkWorld (fs w)
            (trace w ++ map (fun cmd => EvStat (Replace cmd)) replace)).
  rewrite validateLocalReposExist_run.
  split; [done|]. split; [done|].
  destruct (omap (offence (fs w)) replace) as [|e0 missing] eqn:E.
  - left. split; [done|]. by apply omap_offence_nil.
  - right. eexists. split; [done|]. rewrite <- E.
    split; [|split; [apply Error_missing_error|split; [apply offence_None|]]].
    + apply omap_offence_cons. congruence.
    + intros cmd Hin Hnd.
      destruct (offence (fs w) cmd) as [entry|] eqn:Ho;
        [|by apply offence_None in Ho].
      exists entry. split; [done|].
      split; [by eapply offence_In|].
      split; [by eapply offence_names_path|].
      by eapply missing_error_names_path.
Qed.

(** C5. If the stripper, the rule loader and the matcher succeed and the
    replace path of some matched rule is not a directory, the program ends
    in [log.Fatal] (exit status 1) with an error whose text contains that
    path. The files are as the stripper left them: the manifest has lost
    its [replace] lines and has gained none, and after the stripper the
    program only opened, closed and examined files, so the appender did
    not run. *)
Theorem C5_missing_directory_is_fatal
    Unmarshal flags w w1 w2 w3 find replace cmd :
  clean flags = false ->
  deleteLinesWithReplace (goModPath flags) w = (w1, Ok tt) ->
  readYamlConfig Unmarshal (goModConfigPath flags) w1 = (w2, Ok find) ->
  findMatchesInFile (goModPath flags) find w2 = (w3, Ok replace) ->
  In cmd replace ->
  fs w !! Replace cmd <> Some Directory ->
  exists w4 err d evs,
    main Unmarshal flags w = (w4, Fatal err) /\
    exit_status (Fatal err) = 1%Z /\
    exit_status (Fatal err) <> 0%Z /\
    Contains (Error err) (Replace cmd) = true /\
    fs w !! goModPath flags = Some (Regular d) /\
    fs w4 = fs w1 /\
    fs w4 !! goModPath flags =
      Some (Regular
              (unlines
                 (List.filter (fun line => negb (HasPrefix line "replace"))
                              (scan_lines d)))) /\
    trace w4 = trace w1 ++ evs /\
    forallb inspects evs = true.
Proof.
  intros Hc H1 H2 H3 Hin Hnd.
  destruct (deleteLinesWithReplace_inv _ _ _ H1) as (d & Hf & Hfit).
  assert (fs w2 = fs w1) as Hfs2.
  { pose proof (readYamlConfig_fs Unmarshal (goModConfigPath flags) w1) as E.
    by rewrite H2 in E. }
  assert (fs w3 = fs w2) as Hfs3.
  { pose proof (findMatchesInFile_fs (goModPath flags) find w2) as E.
    by rewrite H3 in E. }
  assert (fs w3 !! Replace cmd <> Some Directory) as Hnd3.
  { rewrite Hfs3, Hfs2. by rewrite (strip_keeps_directories _ _ _ _ H1). }
  destruct (validate_offender replace w3 cmd Hin Hnd3) as (err & Hv & Hc4).
  rewrite (main_pipeline Unmarshal flags w w1 w2 w3 find replace Hc H1 H2 H3).
  rewrite Hv.
  destruct (readYamlConfig_trace Unmarshal (goModConfigPath flags) w1)
    as (evs2 & Ht2 & Hi2).
  destruct (findMatchesInFile_trace (goModPath flags) find w2)
    as (evs3 & Ht3 & Hi3).
  rewrite H2 in Ht2. rewrite H3 in Ht3. simpl in Ht2, Ht3.
  eexists _, err, d,
    (evs2 ++ evs3 ++ map (fun c => EvStat (Replace c)) replace).
  split; [done|]. split; [done|]. split; [done|]. split; [done|].
  split; [done|]. simpl. split; [congruence|].
  split.
  - rewrite Hfs3, Hfs2.
    rewrite (deleteLinesWithReplace_ok _ _ _ Hf Hfit) in H1.
    injection H1 as <-. apply lookup_insert_eq.
  - split.
    + by rewrite Ht3, Ht2, <- !app_assoc.
    + by rewrite !forallb_app, Hi2, Hi3, forallb_inspects_stat.
Qed.

(** C5 on the scenario of the specification without [../local/bar]. *)
Lemma C5_witness :
  exists w4 err,
    main scenario_yaml (scenario_flags false) (scenario_world false) =
      (w4, Fatal err) /\
    Contains (Error err) "../local/bar" = true /\
    fs w4 !! "go.mod" = Some (Regular ("require foo/bar v1.0.0" +:+ LF)).
Proof.
  set (w := scenario_world false).
  set (s1 := deleteLinesWithReplace "go.mod" w).
  set (s2 := readYamlConfig scenario_yaml "replace.yaml" s1.1).
  set (s3 := findMatchesInFile "go.mod" [mkFindReplace "foo/bar" "../local/bar"] s2.1).
  destruct (C5_missing_directory_is_fatal scenario_yaml (scenario_flags false)
              w s1.1 s2.1 s3.1
              [mkFindReplace "foo/bar" "../local/bar"]
              [mkFindReplace "foo/bar" "../local/bar"]
              (mkFindReplace "foo/bar" "../local/bar"))
    as (w4 & err & d & evs & Hmain & _ & _ & Hc & Hd & _ & Hfs & _);
    [reflexivity|reflexivity|reflexivity|reflexivity|by left|done|].
  exists w4, err. split; [exact Hmain|]. split; [exact Hc|].
  change (goModPath (scenario_flags false)) with "go.mod" in Hfs.
  rewrite Hfs. injection Hd as <-. reflexivity.
Defined.

(** C6, as stated, fails: on the manifest [a CR CR LF] the first run leaves
    [a CR LF] and the second run leaves [a LF]. *)
Lemma C6_counterexample :
  exists w1 w2,
    deleteLinesWithReplace "go.mod" stray_cr_world = (w1, Ok tt) /\
    deleteLinesWithReplace "go.mod" w1 = (w2, Ok tt) /\
    fs w1 !! "go.mod" = Some (Regular ("a" +:+ CR +:+ LF)) /\
    fs w2 !! "go.mod" = Some (Regular ("a" +:+ LF)) /\
    fs w2 !! "go.mod" <> fs w1 !! "go.mod".
Proof.
  eexists _, _. split; [by apply deleteLinesWithReplace_ok|].
  split; [by apply deleteLinesWithReplace_ok|]. by vm_compute.
Qed.

(** C6, amended. On a manifest that can be read the stripper succeeds
    twice in a row. The second run writes the lines the first run kept,
    each without one more trailing carriage return. The two runs leave the
    same files exactly when no line kept by the first run ends with a
    carriage return; this is so for every manifest whose lines end with a
    line feed or with one carriage return and a line feed. *)
Theorem C6_strip_twice path w d :
  fs w !! path = Some (Regular d) ->
  all_fit (raw_lines d) = true ->
  exists w1 w2 kept,
    deleteLinesWithReplace path w = (w1, Ok tt) /\
    deleteLinesWithReplace path w1 = (w2, Ok tt) /\
    kept =
      List.filter (fun line => negb (HasPrefix line "replace")) (scan_lines d) /\
    fs w1 !! path = Some (Regular (unlines kept)) /\
    fs w2 !! path = Some (Regular (unlines (map dropCR kept))) /\
    (Forall (fun l => last_byte l <> Some cr) kept <-> fs w2 = fs w1) /\
    (Forall (fun l => last_byte l <> Some cr) kept <->
     fs w2 !! path = fs w1 !! path) /\
    (Forall (fun raw => last_byte (dropCR raw) <> Some cr) (raw_lines d) ->
     fs w2 = fs w1).
Proof.
  intros Hf Hfit.
  cut (exists w1 w2 kept,
    deleteLinesWithReplace path w = (w1, Ok tt) /\
    deleteLinesWithReplace path w1 = (w2, Ok tt) /\
    kept = List.filter keep (scan_lines d) /\
    fs w1 !! path = Some (Regular (unlines kept)) /\
    fs w2 !! path = Some (Regular (unlines (map dropCR kept))) /\
    (Forall (fun l => last_byte l <> Some cr) kept <-> fs w2 = fs w1) /\
    (Forall (fun l => last_byte l <> Some cr) kept <->
     fs w2 !! path = fs w1 !! path)).
  { intros (w1 & w2 & kept & H1 & H2 & -> & H3 & H4 & H5 & H6).
    exists w1, w2, (List.filter keep (scan_lines d)).
    repeat (split; [done|]). intros Hraw. apply H5.
    unfold scan_lines. rewrite tokens_of_all_fit by done.
    clear -Hraw. induction Hraw as [|raw raws Hr _ IH]; simpl; [constructor|].
    destruct (keep (dropCR raw)); [by constructor|done]. }
  eexists _, _, _. split; [by apply deleteLinesWithReplace_ok|].
  split.
  { apply deleteLinesWithReplace_ok; [apply lookup_insert_eq|].
    apply all_fit_stripped. }
  split; [done|]. simpl. rewrite insert_insert_eq, !lookup_insert_eq.
  split; [done|]. rewrite stripped_stripped. split; [done|].
  fold keep.
  assert (Forall (fun l => last_byte l <> Some cr)
            (List.filter keep (scan_lines d)) <->
          unlines (map dropCR (List.filter keep (scan_lines d))) =
          stripped d) as Hiff.
  { rewrite <- map_dropCR_id. split; [by intros ->|].
    apply unlines_inj; [apply Forall_no_lf_dropCR|]; apply kept_no_lf. }
  split; rewrite Hiff.
  - split; [by intros ->|]. intros E.
    apply (f_equal (fun m => m !! path)) in E.
    rewrite !lookup_insert_eq in E. by injection E.
  - split; [by intros ->|]. by intros [= ?].
Qed.

(** C6 on a manifest whose lines end with a line feed, with carriage
    return and line feed, or with nothing. *)
Lemma C6_witness :
  exists w1 w2,
    deleteLinesWithReplace "go.mod" C2_world = (w1, Ok tt) /\
    deleteLinesWithReplace "go.mod" w1 = (w2, Ok tt) /\
    fs w2 = fs w1.
Proof.
  destruct (C6_strip_twice "go.mod" C2_world
              ("require foo/bar v1.0.0" +:+ CR +:+ LF +:+
               "replace foo/bar => ./old" +:+ LF +:+
               "go 1.21"))
    as (w1 & w2 & kept & H1 & H2 & -> & _ & _ & Hiff & _);
    [reflexivity|reflexivity|].
  exists w1, w2. split; [exact H1|]. split; [exact H2|].
  apply Hiff. repeat constructor; by vm_compute.
Defined.

(** C7. With [-clean] the program runs the stripper and nothing else. On a
    manifest that can be read it returns (exit status 0), the manifest has
    lost the lines that start with [replace], and the only system calls
    are those of the stripper: the configuration is not opened, whether it
    exists or not, and [Unmarshal] is not consulted. *)
Theorem C7_clean_only_strips Unmarshal flags w d :
  clean flags = true ->
  fs w !! goModPath flags = Some (Regular d) ->
  all_fit (raw_lines d) = true ->
  exists w',
    main Unmarshal flags w = (w', Returned) /\
    exit_status Returned = 0%Z /\
    deleteLinesWithReplace (goModPath flags) w = (w', Ok tt) /\
    fs w' =
      <[goModPath flags :=
          Regular
            (unlines
               (List.filter (fun line => negb (HasPrefix line "replace"))
                            (scan_lines d)))]> (fs w) /\
    Forall (fun l => HasPrefix l "replace" = false)
           (scan_lines (stripped d)) /\
    trace w' = trace w ++ strip_events w (goModPath flags) d /\
    (goModConfigPath flags <> goModPath flags ->
     forall ev,
       In ev (strip_events w (goModPath flags) d) ->
       ev <> EvOpen (goModConfigPath flags) /\
       ev <> EvReadFile (goModConfigPath flags)).
Proof.
  intros Hc Hf Hfit.
  pose proof (deleteLinesWithReplace_ok _ _ _ Hf Hfit) as Hrun.
  eexists. split; [by apply main_clean|]. split; [done|].
  split; [done|]. split; [done|]. split; [|split; [done|]].
  - rewrite scan_lines_stripped.
    rewrite <- filter_keep_dropCR by apply filter_keep_Forall.
    eapply Forall_impl; [apply filter_keep_Forall|]. intros l. unfold keep.
    by intros ?%negb_true_iff.
  - intros Hne. by apply strip_events_no_read.
Qed.

(** C7 on a manifest with two directives; there is no configuration file
    and no parser that succeeds. *)
Lemma C7_witness :
  exists w',
    main (fun _ => Err (ErrorString "unused")) (mkFlags "go.mod" "missing.yaml" true)
      (mkWorld
         {[ "go.mod" :=
              Regular ("replace a => ../a" +:+ LF +:+ "module m" +:+ LF +:+
                       "replace b => ../b" +:+ LF) ]} [])
    = (w', Returned) /\
    fs w' !! "go.mod" = Some (Regular ("module m" +:+ LF)).
Proof.
  destruct (C7_clean_only_strips (fun _ => Err (ErrorString "unused"))
              (mkFlags "go.mod" "missing.yaml" true)
              (mkWorld
                 {[ "go.mod" :=
                      Regular ("replace a => ../a" +:+ LF +:+ "module m" +:+ LF +:+
                               "replace b => ../b" +:+ LF) ]} [])
              ("replace a => ../a" +:+ LF +:+ "module m" +:+ LF +:+
               "replace b => ../b" +:+ LF))
    as (w' & Hmain & _ & _ & Hfs & _); [reflexivity|reflexivity|reflexivity|].
  exists w'. split; [exact Hmain|]. rewrite Hfs. reflexivity.
Defined.

(** C8. An empty match set is not an error. If the stripper and the rule
    loader succeed and no line of the stripped manifest contains the
    find-string of any rule, then the matcher returns the empty match set,
    the validator returns [nil], the appender succeeds and leaves the
    manifest with the content it had after stripping, and the program
    returns (exit status 0). *)
Theorem C8_empty_match_set_is_success
    Unmarshal flags w w1 w2 find content :
  clean flags = false ->
  deleteLinesWithReplace (goModPath flags) w = (w1, Ok tt) ->
  readYamlConfig Unmarshal (goModConfigPath flags) w1 = (w2, Ok find) ->
  fs w1 !! goModPath flags = Some (Regular content) ->
  (forall cmd line,
     In cmd find -> In line (scan_lines content) ->
     Contains line (Find cmd) = false) ->
  exists w3 w4 w5,
    findMatchesInFile (goModPath flags) find w2 = (w3, Ok []) /\
    validateLocalReposExist [] w3 = (w4, Ok tt) /\
    appendModReplace (goModPath flags) [] w4 = (w5, Ok tt) /\
    fs w5 = fs w1 /\
    fs w5 !! goModPath flags = Some (Regular content) /\
    main Unmarshal flags w = (w5, Returned) /\
    exit_status Returned = 0%Z.
Proof.
  intros Hc H1 H2 Hcontent Hnone.
  destruct (deleteLinesWithReplace_inv _ _ _ H1) as (d & Hf & Hfit).
  assert (fs w2 = fs w1) as Hfs2.
  { pose proof (readYamlConfig_fs Unmarshal (goModConfigPath flags) w1) as E.
    by rewrite H2 in E. }
  assert (all_fit (raw_lines content) = true) as Hfit1.
  { rewrite (deleteLinesWithReplace_ok _ _ _ Hf Hfit) in H1.
    injection H1 as <-. simpl in Hcontent.
    rewrite lookup_insert_eq in Hcontent. injection Hcontent as <-.
    apply all_fit_stripped. }
  assert (findMatchesInFile (goModPath flags) find w2 =
          (mkWorld (fs w2)
             (trace w2 ++ [EvOpen (goModPath flags); EvClose (goModPath flags)]),
           Ok [])) as H3.
  { rewrite (findMatchesInFile_ok _ _ _ content) by (by rewrite ?Hfs2).
    by rewrite matches_nil. }
  pose proof (validateLocalReposExist_run [] (findMatchesInFile (goModPath flags) find w2).1) as H4.
  rewrite H3 in H4. simpl in H4.
  eexists _, _, _. split; [exact H3|]. split; [exact H4|].
  assert (forall tr, appendModReplace (goModPath flags) [] (mkWorld (fs w2) tr) =
            (mkWorld (fs w1) (tr ++ append_events (mkWorld (fs w2) tr) (goModPath flags) content []),
             Ok tt)) as H5.
  { intros tr. rewrite (appendModReplace_ok _ _ _ content)
      by (simpl; by rewrite Hfs2).
    simpl. by rewrite app_empty_r, Hfs2, insert_id. }
  split; [apply H5|]. split; [done|]. split; [done|].
  erewrite main_pipeline by done. by rewrite H4, H5.
Qed.

(** C8 on the scenario of the specification with a rule that matches no
    line. *)
Lemma C8_witness :
  exists w5,
    main (fun _ => Ok [mkFindReplace "quux" "../local/quux"])
         (scenario_flags false) (scenario_world false) = (w5, Returned) /\
    fs w5 !! "go.mod" = Some (Regular ("require foo/bar v1.0.0" +:+ LF)).
Proof.
  set (yaml := fun _ : string => Ok [mkFindReplace "quux" "../local/quux"]).
  set (w := scenario_world false).
  set (s1 := deleteLinesWithReplace "go.mod" w).
  set (s2 := readYamlConfig yaml "replace.yaml" s1.1).
  destruct (C8_empty_match_set_is_success yaml (scenario_flags false)
              w s1.1 s2.1 [mkFindReplace "quux" "../local/quux"]
              ("require foo/bar v1.0.0" +:+ LF))
    as (w3 & w4 & w5 & _ & _ & _ & _ & Hfs & Hmain & _);
    [reflexivity|reflexivity|reflexivity|reflexivity| |].
  - intros cmd line [<-|[]] [<-|[]]. reflexivity.
  - exists w5. split; [exact Hmain|exact Hfs].
Defined.

(** C9. A rule with an empty find-string is found in every line. On a
    manifest of [n] lines it is in the match set [n] times for each time
    the configuration lists it, and the appender writes the same directive
    [replace  => <replace>] for each of these entries. *)
Theorem C9_empty_find_matches_every_line path find w d r :
  fs w !! path = Some (Regular d) ->
  all_fit (raw_lines d) = true ->
  Find r = "" ->
  exists w' found w'',
    findMatchesInFile path find w = (w', Ok found) /\
    (forall line, Contains line (Find r) = true) /\
    count_occ FindReplace_eq_dec found r =
      (count_occ FindReplace_eq_dec find r * length (scan_lines d))%nat /\
    appendModReplace path found w' = (w'', Ok tt) /\
    fs w'' !! path = Some (Regular (d +:+ cat (map directive found))) /\
    map directive (List.filter (fun cmd => bool_decide (cmd = r)) found) =
      repeat ("replace " +:+ "" +:+ " => " +:+ Replace r +:+ LF)
             (count_occ FindReplace_eq_dec find r * length (scan_lines d)).
Proof.
  intros Hf Hfit Hr.
  assert (forall line, hit line r = true) as Hall
    by (intros line; unfold hit; rewrite Hr; apply Contains_empty).
  assert (count_occ FindReplace_eq_dec (matches find (scan_lines d)) r =
          (count_occ FindReplace_eq_dec find r * length (scan_lines d))%nat)
    as Hcount.
  { rewrite count_occ_matches. f_equal. f_equal. apply filter_all.
    intros line _. apply Hall. }
  eexists _, _, _. split; [by apply findMatchesInFile_ok|].
  split; [apply Hall|]. split; [done|].
  split; [by apply appendModReplace_ok|].
  split; [apply lookup_insert_eq|].
  rewrite filter_eq_repeat, map_repeat, Hcount.
  unfold directive. by rewrite Hr.
Qed.

(** C9 on a manifest of three lines, one of them empty. *)
Lemma C9_witness :
  exists w' w'',
    findMatchesInFile "go.mod"
      [mkFindReplace "" "../x"; mkFindReplace "quux" "../q"]
      (mkWorld {[ "go.mod" := Regular ("module m" +:+ LF +:+ LF +:+ "go 1.21") ]} [])
    = (w', Ok [mkFindReplace "" "../x"; mkFindReplace "" "../x";
               mkFindReplace "" "../x"]) /\
    appendModReplace "go.mod"
      [mkFindReplace "" "../x"; mkFindReplace "" "../x";
       mkFindReplace "" "../x"] w' = (w'', Ok tt) /\
    fs w'' !! "go.mod" =
      Some (Regular ("module m" +:+ LF +:+ LF +:+ "go 1.21" +:+
                     "replace  => ../x" +:+ LF +:+
                     "replace  => ../x" +:+ LF +:+
                     "replace  => ../x" +:+ LF)).
Proof.
  destruct (C9_empty_find_matches_every_line "go.mod"
              [mkFindReplace "" "../x"; mkFindReplace "quux" "../q"]
              (mkWorld {[ "go.mod" :=
                            Regular ("module m" +:+ LF +:+ LF +:+ "go 1.21") ]} [])
              ("module m" +:+ LF +:+ LF +:+ "go 1.21")
              (mkFindReplace "" "../x"))
    as (w' & found & w'' & Hm & _ & _ & Ha & Hfs & _);
    [reflexivity|reflexivity|reflexivity|].
  exists w', w''.
  assert (found = [mkFindReplace "" "../x"; mkFindReplace "" "../x";
                   mkFindReplace "" "../x"]) as ->.
  { vm_compute in Hm. by injection Hm as _ <-. }
  split; [exact Hm|]. split; [exact Ha|]. rewrite Hfs. reflexivity.
Defined.

(** C10. The stripper does not copy the bytes of the lines it keeps. It
    writes each kept line as the scanner read it and one line feed after
    it. So a kept last line without line feed gains a line feed, and a
    kept line that ended with carriage return and line feed ends with the
    line feed alone; in both cases the content of the manifest changes
    although the line does not start with [replace]. *)
Theorem C10_stripper_rewrites_line_ends path w d :
  fs w !! path = Some (Regular d) ->
  all_fit (raw_lines d) = true ->
  exists w',
    deleteLinesWithReplace path w = (w', Ok tt) /\
    fs w' !! path = Some (Regular (stripped d)) /\
    stripped d =
      cat (map (fun l => l +:+ LF)
               (List.filter (fun line => negb (HasPrefix line "replace"))
                            (scan_lines d))) /\
    (forall pre l,
       d = pre +:+ l -> ends_line pre ->
       l <> "" -> no_lf l = true -> last_byte l <> Some cr ->
       HasPrefix l "replace" = false ->
       stripped d = stripped pre +:+ l +:+ LF /\ stripped d <> d) /\
    (forall pre l post,
       d = pre +:+ (l +:+ CR +:+ LF) +:+ post -> ends_line pre ->
       no_lf l = true ->
       HasPrefix l "replace" = false ->
       stripped d = stripped pre +:+ (l +:+ LF) +:+ stripped post /\
       stripped d <> d).
Proof.
  intros Hf Hfit. eexists. split; [by apply deleteLinesWithReplace_ok|].
  split; [apply lookup_insert_eq|]. split; [done|]. split.
  - intros pre l -> Hpre Hne Hlf Hcr Hk.
    rewrite raw_lines_app_lf, (raw_lines_last l), all_fit_app in Hfit by done.
    apply andb_true_iff in Hfit as [Hfit1 Hfit2]. simpl in Hfit2.
    rewrite andb_true_r in Hfit2.
    assert (stripped (pre +:+ l) = stripped pre +:+ l +:+ LF) as E.
    { rewrite stripped_app, (stripped_last_line l); try done.
      unfold keep. by rewrite Hk. }
    split; [done|]. intros E'. rewrite E in E'.
    apply (f_equal last_byte) in E'.
    unfold LF in E'.
    rewrite <- app_assoc', last_byte_app, last_byte_app_r in E' by done.
    by apply (no_lf_last_byte l).
  - intros pre l post -> Hpre Hlf Hk.
    pose proof Hfit as Hfit'.
    rewrite raw_lines_app_lf, all_fit_app in Hfit by done.
    apply andb_true_iff in Hfit as [Hfit1 Hfit2].
    rewrite !app_assoc' in Hfit2.
    rewrite <- (app_assoc' l), <- (app_assoc' (l +:+ CR)) in Hfit2.
    rewrite raw_lines_app_lf, all_fit_app in Hfit2
      by apply ends_line_app_LF.
    apply andb_true_iff in Hfit2 as [Hfit2 Hfit3].
    rewrite app_assoc', raw_lines_crlf in Hfit2 by done. simpl in Hfit2.
    rewrite andb_true_r in Hfit2.
    assert (ends_line (l +:+ CR +:+ LF)) as Hend.
    { rewrite <- app_assoc'. apply ends_line_app_LF. }
    split.
    + rewrite stripped_app by done. f_equal.
      rewrite stripped_app, (stripped_crlf l); try done.
      * unfold keep. by rewrite Hk.
      * by rewrite raw_lines_crlf; simpl; rewrite ?Hfit2.
    + intros E. apply stripped_fixpoint in E; [|done].
      rewrite raw_lines_app_lf, (raw_lines_app_lf (l +:+ CR +:+ LF)) in E
        by done.
      rewrite raw_lines_crlf in E by done.
      apply Forall_app in E as [_ E]. apply Forall_app in E as [E _].
      inversion E as [|?? Hcr _]; subst. apply Hcr.
      apply (last_byte_app l cr).
Qed.

(** C10 on a manifest without final line feed and on one with carriage
    return and line feed. *)
Lemma C10_witness :
  exists w1 w2,
    deleteLinesWithReplace "go.mod"
      (mkWorld {[ "go.mod" := Regular ("module m" +:+ LF +:+ "go 1.21") ]} [])
    = (w1, Ok tt) /\
    fs w1 !! "go.mod" =
      Some (Regular ("module m" +:+ LF +:+ "go 1.21" +:+ LF)) /\
    deleteLinesWithReplace "go.mod"
      (mkWorld {[ "go.mod" := Regular ("module m" +:+ CR +:+ LF) ]} [])
    = (w2, Ok tt) /\
    fs w2 !! "go.mod" = Some (Regular ("module m" +:+ LF)).
Proof.
  destruct (C10_stripper_rewrites_line_ends "go.mod"
              (mkWorld {[ "go.mod" :=
                            Regular ("module m" +:+ LF +:+ "go 1.21") ]} [])
              ("module m" +:+ LF +:+ "go 1.21"))
    as (w1 & H1 & Hfs1 & _); [reflexivity|reflexivity|].
  destruct (C10_stripper_rewrites_line_ends "go.mod"
              (mkWorld {[ "go.mod" :=
                            Regular ("module m" +:+ CR +:+ LF) ]} [])
              ("module m" +:+ CR +:+ LF))
    as (w2 & H2 & Hfs2 & _); [reflexivity|reflexivity|].
  exists w1, w2. split; [exact H1|]. split; [rewrite Hfs1; reflexivity|].
  split; [exact H2|]. rewrite Hfs2. reflexivity.
Defined.

(* ===================================================================== *)
(** ** Further properties of main.go *)
(* ===================================================================== *)


(** X2. A call of [deleteLinesWithReplace] that returns an error has
    changed no file: the manifest has its old content and the temporary
    file, if one was created, has been removed again. *)
Theorem X2_strip_failure_changes_nothing path w w' err :
  deleteLinesWithReplace path w = (w', Err err) ->
  fs w' = fs w.
Proof. apply deleteLinesWithReplace_err_fs. Qed.

(** X2 on a manifest path that names a directory: the temporary file is
    created, the read fails, the temporary file is removed. *)
Lemma X2_witness :
  let w := mkWorld {[ "go.mod" := Directory ]} [] in
  (deleteLinesWithReplace "go.mod" w).2 =
    Err (PathError "read" "go.mod" EISDIR) /\
  In (EvCreateTemp "/tmp/go.mod.temp0")
     (trace (deleteLinesWithReplace "go.mod" w).1) /\
  fs (deleteLinesWithReplace "go.mod" w).1 = fs w.
Proof.
  split; [reflexivity|]. split; [vm_compute; auto|].
  apply (X2_strip_failure_changes_nothing "go.mod"
           (mkWorld {[ "go.mod" := Directory ]} []) _
           (PathError "read" "go.mod" EISDIR)).
  reflexivity.
Defined.

(** X3. Whatever it returns, [deleteLinesWithReplace] leaves the file
    system with the paths it had (no temporary file stays behind) and with
    the old content under every path but the manifest's. *)
Theorem X3_strip_touches_only_the_manifest path w :
  dom (fs (deleteLinesWithReplace path w).1) = dom (fs w) /\
  forall q, q <> path ->
    fs (deleteLinesWithReplace path w).1 !! q = fs w !! q.
Proof. apply deleteLinesWithReplace_only_changes. Qed.

(** X4. On a manifest that can be read, [deleteLinesWithReplace] leaves
    the content as it was exactly when the manifest is a sequence of lines,
    each ended by a line feed, none of which starts with [replace] or ends
    with a carriage return. *)
Theorem X4_strip_changes_nothing_iff_clean path w d :
  fs w !! path = Some (Regular d) ->
  all_fit (raw_lines d) = true ->
  exists w',
    deleteLinesWithReplace path w = (w', Ok tt) /\
    (fs w' = fs w <->
     exists ls,
       d = cat (map (fun l => l +:+ LF) ls) /\
       Forall (fun l => no_lf l = true /\
                        HasPrefix l "replace" = false /\
                        last_byte l <> Some cr) ls).
Proof.
  intros Hf Hfit. eexists. split; [by apply deleteLinesWithReplace_ok|].
  simpl. split.
  - intros E. apply (f_equal (fun m => m !! path)) in E.
    rewrite lookup_insert_eq, Hf in E. injection E as E.
    exists (List.filter keep (scan_lines d)). split; [done|].
    pose proof (stripped_fixpoint d Hfit E) as Hcr.
    rewrite <- E, raw_lines_stripped in Hcr.
    pose proof (kept_no_lf d) as Hlf.
    pose proof (filter_keep_Forall (scan_lines d)) as Hk.
    rewrite Forall_forall in *. intros l Hl.
    split; [by apply Hlf|]. split; [|by apply Hcr].
    specialize (Hk l Hl). unfold keep in Hk. by apply negb_true_iff in Hk.
  - intros (ls & -> & Hls). fold (unlines ls) in *.
    assert (Forall (fun l => no_lf l = true) ls) as Hlf
      by (eapply Forall_impl; [exact Hls|]; by intros l (? & _)).
    rewrite raw_lines_unlines in Hfit by done.
    assert (stripped (unlines ls) = unlines ls) as E.
    { unfold stripped. rewrite scan_lines_unlines by done.
      assert (map dropCR ls = ls) as ->.
      { apply map_dropCR_id. eapply Forall_impl; [exact Hls|].
        by intros l (_ & _ & ?). }
      f_equal. apply filter_all. intros l Hl%list_elem_of_In.
      rewrite Forall_forall in Hls. destruct (Hls l Hl) as (_ & Hk & _).
      unfold keep. by rewrite Hk. }
    rewrite E. by apply insert_id.
Qed.

(** X4 on a manifest of two lines. *)
Lemma X4_witness :
  exists w',
    deleteLinesWithReplace "go.mod"
      (mkWorld {[ "go.mod" := Regular ("module m" +:+ LF +:+ "go 1.21" +:+ LF) ]} [])
    = (w', Ok tt) /\
    fs w' = {[ "go.mod" := Regular ("module m" +:+ LF +:+ "go 1.21" +:+ LF) ]}.
Proof.
  destruct (X4_strip_changes_nothing_iff_clean "go.mod"
              (mkWorld {[ "go.mod" :=
                   Regular ("module m" +:+ LF +:+ "go 1.21" +:+ LF) ]} [])
              ("module m" +:+ LF +:+ "go 1.21" +:+ LF))
    as (w' & Hrun & Hiff); [reflexivity|reflexivity|].
  exists w'. split; [exact Hrun|]. apply Hiff.
  exists ["module m"; "go 1.21"]. split; [reflexivity|].
  repeat constructor; by vm_compute.
Defined.


(** X6. Two calls of [appendModReplace] in a row leave the files that one
    call with the two match sets, one after the other, leaves. *)
Theorem X6_append_composes path replace1 replace2 w w1 w2 :
  appendModReplace path replace1 w = (w1, Ok tt) ->
  appendModReplace path replace2 w1 = (w2, Ok tt) ->
  exists w',
    appendModReplace path (replace1 ++ replace2) w = (w', Ok tt) /\
    fs w' = fs w2.
Proof.
  intros H1 H2.
  destruct (appendModReplace_inv _ _ _ _ H1) as (d & Hf).
  rewrite (appendModReplace_ok _ _ _ _ Hf) in H1. injection H1 as <-.
  rewrite (appendModReplace_ok _ _ _ (d +:+ cat (map directive replace1)))
    in H2 by apply lookup_insert_eq.
  injection H2 as <-. eexists. split; [by apply appendModReplace_ok|].
  simpl. by rewrite insert_insert_eq, map_app, cat_app, app_assoc'.
Qed.

(** X6 with one rule in each call. *)
Lemma X6_witness :
  exists w',
    appendModReplace "go.mod"
      [mkFindReplace "a" "../a"; mkFindReplace "b" "../b"] C3_world =
      (w', Ok tt) /\
    fs w' !! "go.mod" =
      Some (Regular ("require foo/bar v1.0.0" +:+ LF +:+
                     "replace a => ../a" +:+ LF +:+
                     "replace b => ../b" +:+ LF)).
Proof.
  set (s1 := appendModReplace "go.mod" [mkFindReplace "a" "../a"] C3_world).
  set (s2 := appendModReplace "go.mod" [mkFindReplace "b" "../b"] s1.1).
  destruct (X6_append_composes "go.mod"
              [mkFindReplace "a" "../a"] [mkFindReplace "b" "../b"]
              C3_world s1.1 s2.1)
    as (w' & Hrun & Hfs); [reflexivity|reflexivity|].
  exists w'. split; [exact Hrun|]. rewrite Hfs. reflexivity.
Defined.

(** X7. The stripper undoes the appender. On a manifest that is empty or
    ends with a line feed, appending the directives of rules without line
    feeds and then stripping leaves the files that stripping alone
    leaves. *)
Theorem X7_strip_undoes_append path replace w d :
  fs w !! path = Some (Regular d) ->
  all_fit (raw_lines d) = true ->
  ends_line d ->
  Forall one_line replace ->
  exists w1 w2 w0,
    appendModReplace path replace w = (w1, Ok tt) /\
    deleteLinesWithReplace path w1 = (w2, Ok tt) /\
    deleteLinesWithReplace path w = (w0, Ok tt) /\
    fs w2 = fs w0.
Proof.
  intros Hf Hfit Hd Hone.
  eexists _, _, _. split; [by apply appendModReplace_ok|].
  split; [|split; [by apply deleteLinesWithReplace_ok|]].
  - apply deleteLinesWithReplace_ok; [apply lookup_insert_eq|].
    rewrite raw_lines_directives, all_fit_app, Hfit by done.
    by apply one_line_fit.
  - simpl. rewrite insert_insert_eq. f_equal. f_equal.
    by rewrite stripped_app, stripped_directives, app_empty_r.
Qed.

(** X7 on two rules. *)
Lemma X7_witness :
  exists w1 w2,
    appendModReplace "go.mod"
      [mkFindReplace "a" "../a"; mkFindReplace "b" "../b"] C3_world =
      (w1, Ok tt) /\
    deleteLinesWithReplace "go.mod" w1 = (w2, Ok tt) /\
    fs w2 = fs C3_world.
Proof.
  destruct (X7_strip_undoes_append "go.mod"
              [mkFindReplace "a" "../a"; mkFindReplace "b" "../b"]
              C3_world ("require foo/bar v1.0.0" +:+ LF))
    as (w1 & w2 & w0 & H1 & H2 & H0 & Hfs);
    [reflexivity|reflexivity|by right|repeat constructor|].
  exists w1, w2. split; [exact H1|]. split; [exact H2|].
  rewrite Hfs. vm_compute in H0. by injection H0 as <-.
Defined.

(** X8. [findMatchesInFile] changes no file. It returns an error, and no
    match set, for a manifest that names nothing, cannot be reached, is a
    directory or has a line that does not fit the scanner's buffer, even if
    earlier lines matched. *)
Theorem X8_match_result path find w :
  fs (findMatchesInFile path find w).1 = fs w /\
  (findMatchesInFile path find w).2 =
  match fs w !! path with
  | Some (Regular d) =>
      if all_fit (raw_lines d) then Ok (matches find (scan_lines d))
      else Err ErrTooLong
  | Some Directory => Err (PathError "read" path EISDIR)
  | Some (Unreachable e) => Err (PathError "open" path e)
  | None => Err (PathError "open" path ENOENT)
  end.
Proof.
  split; [apply findMatchesInFile_fs|apply findMatchesInFile_result].
Qed.

(** X9. Every entry of the match set is a rule of the configuration whose
    find-string occurs in some line of the manifest, and every such rule is
    in the match set. A rule whose find-string has a line feed is never
    matched, and the match set has at most one entry per rule and line. *)
Theorem X9_match_set_members path find w w' found :
  findMatchesInFile path find w = (w', Ok found) ->
  exists d,
    fs w !! path = Some (Regular d) /\
    (forall cmd,
       In cmd found <->
       In cmd find /\
       exists line, In line (scan_lines d) /\
                    Contains line (Find cmd) = true) /\
    Forall (fun cmd => no_lf (Find cmd) = true) found /\
    (length found <= length find * length (scan_lines d))%nat.
Proof.
  intros Hrun.
  destruct (findMatchesInFile_inv _ _ _ _ _ Hrun) as (d & Hf & Hfit).
  rewrite (findMatchesInFile_ok _ _ _ _ Hf Hfit) in Hrun.
  injection Hrun as _ <-. exists d. split; [done|].
  assert (forall cmd,
            In cmd (matches find (scan_lines d)) <->
            In cmd find /\
            exists line, In line (scan_lines d) /\
                         Contains line (Find cmd) = true) as Hmem.
  { intros cmd. unfold matches. rewrite in_flat_map. split.
    - intros (line & Hl & [Hc Hh]%filter_In). eauto.
    - intros (Hc & line & Hl & Hh). exists line. split; [done|].
      by apply filter_In. }
  split; [exact Hmem|]. split.
  - apply Forall_forall. intros cmd Hin%list_elem_of_In.
    apply Hmem in Hin as (_ & line & Hl & Hh).
    apply (Contains_no_lf line); [done|].
    pose proof (scan_lines_no_lf d) as Hlf. rewrite Forall_forall in Hlf.
    by apply Hlf, list_elem_of_In.
  - unfold matches. generalize (scan_lines d). intros lines.
    induction lines as [|line lines IH]; simpl; [lia|].
    rewrite length_app. pose proof (List.filter_length_le (hit line) find).
    lia.
Qed.

(** X9 on a rule with a line feed in its find-string, and one whose
    find-string occurs in two lines. *)
Lemma X9_witness :
  exists w',
    findMatchesInFile "go.mod"
      [mkFindReplace ("foo/bar v1.0.0" +:+ LF +:+ "require") "../x";
       mkFindReplace "foo/ba" "../y"]
      C1_world =
    (w', Ok [mkFindReplace "foo/ba" "../y"; mkFindReplace "foo/ba" "../y";
             mkFindReplace "foo/ba" "../y"]).
Proof.
  set (find := [mkFindReplace ("foo/bar v1.0.0" +:+ LF +:+ "require") "../x";
                mkFindReplace "foo/ba" "../y"]).
  assert (findMatchesInFile "go.mod" find C1_world =
          ((findMatchesInFile "go.mod" find C1_world).1,
           Ok [mkFindReplace "foo/ba" "../y"; mkFindReplace "foo/ba" "../y";
               mkFindReplace "foo/ba" "../y"])) as Hrun by reflexivity.
  destruct (X9_match_set_members _ _ _ _ _ Hrun) as (d & _).
  eexists. exact Hrun.
Defined.

(** X10. [dirExists] answers [true] exactly for a directory. For a path
    that names nothing and for a regular file it answers [false] without an
    error; an error of [os.Stat] other than "does not exist" is returned as
    it is. The call changes no file. *)
Theorem X10_dirExists_three_ways path w :
  fs (dirExists path w).1 = fs w /\
  ((dirExists path w).2 = Ok true <-> fs w !! path = Some Directory) /\
  ((dirExists path w).2 = Ok false <->
   fs w !! path = None \/
   (exists d, fs w !! path = Some (Regular d)) \/
   fs w !! path = Some (Unreachable ENOENT)) /\
  (forall err,
     (dirExists path w).2 = Err err <->
     exists e, e <> ENOENT /\ fs w !! path = Some (Unreachable e) /\
               err = PathError "stat" path e).
Proof.
  rewrite dirExists_run. simpl. unfold dir_status.
  split; [done|].
  destruct (fs w !! path) as [[d| |e]|] eqn:Hf; [| |destruct e|]; simpl.
  all: repeat split; try done; intros;
    repeat match goal with
           | H : _ \/ _ |- _ => destruct H
           | H : exists _, _ |- _ => destruct H
           | H : _ /\ _ |- _ => destruct H
           end;
    try congruence; eauto.
  all: match goal with H : Err _ = Err _ |- _ => injection H as <- end.
  all: eexists; (split; [|split; reflexivity]); discriminate.
Qed.

(** X11. [readYamlConfig] returns what [yaml.Unmarshal] returns for the
    bytes of the configuration file, rules or error. For a path that names
    nothing, cannot be reached or is a directory it returns the error of
    opening or reading without consulting the parser. It changes no
    file. *)
Theorem X11_readYamlConfig_result Unmarshal path w :
  fs (readYamlConfig Unmarshal path w).1 = fs w /\
  (readYamlConfig Unmarshal path w).2 =
  match fs w !! path with
  | Some (Regular d) => Unmarshal d
  | Some Directory => Err (PathError "read" path EISDIR)
  | Some (Unreachable e) => Err (PathError "open" path e)
  | None => Err (PathError "open" path ENOENT)
  end.
Proof. split; [apply readYamlConfig_fs|apply readYamlConfig_result]. Qed.

(** X12. The program without [-clean], when every step succeeds: on a
    manifest that can be read, with a configuration that parses and with a
    directory at the replace path of every matched rule, [main] returns
    (exit status 0). The manifest then holds its stripped content followed
    by one directive for every match of the rules in the lines of the
    stripped content; no other file has changed. *)
Theorem X12_main_rewrites_manifest Unmarshal flags w d y find :
  clean flags = false ->
  fs w !! goModPath flags = Some (Regular d) ->
  all_fit (raw_lines d) = true ->
  goModConfigPath flags <> goModPath flags ->
  fs w !! goModConfigPath flags = Some (Regular y) ->
  Unmarshal y = Ok find ->
  Forall (fun cmd => fs w !! Replace cmd = Some Directory)
         (matches find (scan_lines (stripped d))) ->
  exists w',
    main Unmarshal flags w = (w', Returned) /\
    exit_status Returned = 0%Z /\
    fs w' =
      <[goModPath flags :=
          Regular
            (stripped d +:+
             cat (map directive (matches find (scan_lines (stripped d)))))]>
        (fs w).
Proof.
  intros Hc Hf Hfit Hne Hy Hu Hdirs.
  destruct (main_success Unmarshal flags w d y find) as (w' & Hm & Hfs);
    try done.
  by exists w'.
Qed.

(** X12 on the scenario of the specification. *)
Lemma X12_witness :
  exists w',
    main scenario_yaml (scenario_flags false) (scenario_world true) =
      (w', Returned) /\
    fs w' !! "go.mod" =
      Some (Regular ("require foo/bar v1.0.0" +:+ LF +:+
                     "replace foo/bar => ../local/bar" +:+ LF)).
Proof.
  destruct (X12_main_rewrites_manifest scenario_yaml (scenario_flags false)
              (scenario_world true) scenario_manifest "- find: foo/bar"
              [mkFindReplace "foo/bar" "../local/bar"])
    as (w' & Hm & _ & Hfs);
    [reflexivity|reflexivity|reflexivity|done|reflexivity|reflexivity| |].
  - repeat constructor.
  - exists w'. split; [exact Hm|]. rewrite Hfs. reflexivity.
Defined.

(** X13. After a successful run of [main] without [-clean], with rules
    whose replace paths have no line feed, the manifest cut at its line
    feeds is the kept lines of the original followed by one line
    [replace <find> => <replace>] per match: every directive is a line of
    its own. *)
Theorem X13_main_directives_are_lines Unmarshal flags w d y find :
  clean flags = false ->
  fs w !! goModPath flags = Some (Regular d) ->
  all_fit (raw_lines d) = true ->
  goModConfigPath flags <> goModPath flags ->
  fs w !! goModConfigPath flags = Some (Regular y) ->
  Unmarshal y = Ok find ->
  Forall (fun cmd => fs w !! Replace cmd = Some Directory)
         (matches find (scan_lines (stripped d))) ->
  Forall (fun cmd => no_lf (Replace cmd) = true) find ->
  exists w' content,
    main Unmarshal flags w = (w', Returned) /\
    fs w' !! goModPath flags = Some (Regular content) /\
    raw_lines content =
      List.filter (fun line => negb (HasPrefix line "replace")) (scan_lines d) ++
      map (fun cmd => "replace " +:+ Find cmd +:+ " => " +:+ Replace cmd)
          (matches find (scan_lines (stripped d))).
Proof.
  intros Hc Hf Hfit Hne Hy Hu Hdirs Hlf.
  destruct (main_success Unmarshal flags w d y find) as (w' & Hm & Hfs);
    try done.
  eexists w', _. split; [done|]. rewrite Hfs.
  split; [apply lookup_insert_eq|].
  rewrite raw_lines_app_lf by apply ends_line_stripped.
  rewrite raw_lines_stripped. f_equal.
  rewrite cat_map_directive. apply raw_lines_unlines.
  apply Forall_forall. intros l (cmd & <- & Hin)%list_elem_of_In%in_map_iff.
  unfold matches in Hin. apply in_flat_map in Hin as (line & Hl & Hin).
  apply filter_In in Hin as [Hin Hh].
  apply no_lf_directive_line.
  - apply (Contains_no_lf line); [done|].
    pose proof (scan_lines_no_lf (stripped d)) as H.
    rewrite Forall_forall in H. by apply H, list_elem_of_In.
  - rewrite Forall_forall in Hlf. by apply Hlf, list_elem_of_In.
Qed.

(** X13 on the scenario of the specification. *)
Lemma X13_witness :
  exists w' content,
    main scenario_yaml (scenario_flags false) (scenario_world true) =
      (w', Returned) /\
    fs w' !! "go.mod" = Some (Regular content) /\
    raw_lines content =
      ["require foo/bar v1.0.0"; "replace foo/bar => ../local/bar"].
Proof.
  destruct (X13_main_directives_are_lines scenario_yaml (scenario_flags false)
              (scenario_world true) scenario_manifest "- find: foo/bar"
              [mkFindReplace "foo/bar" "../local/bar"])
    as (w' & content & Hm & Hfs & Hl);
    [reflexivity|reflexivity|reflexivity|done|reflexivity|reflexivity| | |].
  - repeat constructor.
  - repeat constructor.
  - exists w', content. split; [exact Hm|]. split; [exact Hfs|].
    rewrite Hl. reflexivity.
Defined.

(** X14. If the stripper fails, with or without [-clean], the program ends
    in [log.Fatal] with the stripper's error (exit status 1); no file has
    changed. *)
Theorem X14_main_strip_failure Unmarshal flags w w1 err :
  deleteLinesWithReplace (goModPath flags) w = (w1, Err err) ->
  main Unmarshal flags w = (w1, Fatal err) /\
  exit_status (Fatal err) = 1%Z /\
  fs w1 = fs w.
Proof.
  intros H. split; [by apply main_strip_failed|]. split; [done|].
  by eapply deleteLinesWithReplace_err_fs.
Qed.

(** X14 without a manifest. *)
Lemma X14_witness :
  exists w1,
    main scenario_yaml (scenario_flags false)
         (mkWorld {[ "replace.yaml" := Regular "- find: foo/bar" ]} []) =
      (w1, Fatal (PathError "open" "go.mod" ENOENT)) /\
    fs w1 = {[ "replace.yaml" := Regular "- find: foo/bar" ]}.
Proof.
  set (w := mkWorld {[ "replace.yaml" := Regular "- find: foo/bar" ]} []).
  destruct (X14_main_strip_failure scenario_yaml (scenario_flags false) w
              (deleteLinesWithReplace "go.mod" w).1
              (PathError "open" "go.mod" ENOENT))
    as (Hm & _ & Hfs); [reflexivity|].
  eexists. split; [exact Hm|exact Hfs].
Defined.

(** X15. The configuration is read after the manifest has been stripped.
    If the stripper succeeds and [readYamlConfig] fails (no file, or a
    document that does not parse), the program ends in [log.Fatal] with
    that error, and the manifest is left stripped: its old directives are
    gone and none has been added. *)
Theorem X15_main_config_failure Unmarshal flags w w1 w2 err :
  clean flags = false ->
  deleteLinesWithReplace (goModPath flags) w = (w1, Ok tt) ->
  readYamlConfig Unmarshal (goModConfigPath flags) w1 = (w2, Err err) ->
  exists d,
    main Unmarshal flags w = (w2, Fatal err) /\
    exit_status (Fatal err) = 1%Z /\
    fs w !! goModPath flags = Some (Regular d) /\
    fs w2 = <[goModPath flags := Regular (stripped d)]> (fs w).
Proof.
  intros Hc H1 H2.
  destruct (deleteLinesWithReplace_inv _ _ _ H1) as (d & Hf & Hfit).
  exists d. split.
  { unfold main, run, mbind, IO_bind. unfold bind at 1. rewrite H1, Hc.
    unfold bind at 1. by rewrite H2. }
  split; [done|]. split; [done|].
  pose proof (readYamlConfig_fs Unmarshal (goModConfigPath flags) w1) as E.
  rewrite H2 in E. simpl in E. rewrite E.
  rewrite (deleteLinesWithReplace_ok _ _ _ Hf Hfit) in H1.
  by injection H1 as <-.
Qed.

(** X15 on the scenario of the specification with a configuration that
    does not parse. *)
Lemma X15_witness :
  exists w2,
    main (fun _ => Err (ErrorString "yaml: unmarshal errors"))
         (scenario_flags false) (scenario_world true) =
      (w2, Fatal (ErrorString "yaml: unmarshal errors")) /\
    fs w2 !! "go.mod" = Some (Regular ("require foo/bar v1.0.0" +:+ LF)).
Proof.
  set (yaml := fun _ : string =>
                 @Err (list FindReplace) (ErrorString "yaml: unmarshal errors")).
  set (w := scenario_world true).
  set (s1 := deleteLinesWithReplace "go.mod" w).
  set (s2 := readYamlConfig yaml "replace.yaml" s1.1).
  destruct (X15_main_config_failure yaml (scenario_flags false) w s1.1 s2.1
              (ErrorString "yaml: unmarshal errors"))
    as (d & Hm & _ & Hd & Hfs); [reflexivity|reflexivity|reflexivity|].
  exists s2.1. split; [exact Hm|]. rewrite Hfs.
  injection Hd as <-. reflexivity.
Defined.

(** X16. The matcher cannot fail on a manifest that the stripper has just
    written: the manifest is a regular file and each of its lines fits the
    scanner's buffer. The lines it matches against are the kept lines,
    each without one more trailing carriage return. *)
Theorem X16_match_after_strip path find w w1 :
  deleteLinesWithReplace path w = (w1, Ok tt) ->
  exists d w2,
    fs w !! path = Some (Regular d) /\
    findMatchesInFile path find w1 =
      (w2,
       Ok (matches find
             (map dropCR
                (List.filter (fun line => negb (HasPrefix line "replace"))
                             (scan_lines d))))).
Proof.
  intros H1.
  destruct (deleteLinesWithReplace_inv _ _ _ H1) as (d & Hf & Hfit).
  rewrite (deleteLinesWithReplace_ok _ _ _ Hf Hfit) in H1.
  injection H1 as <-. exists d. eexists. split; [done|].
  rewrite (findMatchesInFile_ok _ _ _ (stripped d));
    [|apply lookup_insert_eq|apply all_fit_stripped].
  by rewrite scan_lines_stripped.
Qed.

(** X16 on a manifest with a directive. *)
Lemma X16_witness :
  exists w2,
    findMatchesInFile "go.mod" [mkFindReplace "foo/bar" "../local/bar"]
      (deleteLinesWithReplace "go.mod" (scenario_world true)).1 =
    (w2, Ok [mkFindReplace "foo/bar" "../local/bar"]).
Proof.
  destruct (X16_match_after_strip "go.mod"
              [mkFindReplace "foo/bar" "../local/bar"]
              (scenario_world true)
              (deleteLinesWithReplace "go.mod" (scenario_world true)).1)
    as (d & w2 & Hd & Hrun); [reflexivity|].
  exists w2. rewrite Hrun. injection Hd as <-. reflexivity.
Defined.

(** X17. Whatever the flags, the parser and the outcome, [main] leaves the
    file system with the paths it had and with the old content under every
    path but the manifest's: it writes to no other file, and no temporary
    file stays behind. *)
Theorem X17_main_touches_only_the_manifest Unmarshal flags w :
  dom (fs (main Unmarshal flags w).1) = dom (fs w) /\
  forall q, q <> goModPath flags ->
    fs (main Unmarshal flags w).1 !! q = fs w !! q.
Proof.
  pose proof (run_only_changes Unmarshal flags w) as H.
  unfold main. by destruct (run Unmarshal flags w) as [w' [[]|?]].
Qed.

(** X18. Running the program twice is running it once. If a run of [main]
    without [-clean] succeeds on a manifest whose kept lines do not end
    with a carriage return, with matched rules whose directives are single
    lines that fit the scanner's buffer, then a second run on the result
    succeeds and leaves every file as the first run left it. *)
Theorem X18_main_twice Unmarshal flags w d y find :
  clean flags = false ->
  fs w !! goModPath flags = Some (Regular d) ->
  all_fit (raw_lines d) = true ->
  goModConfigPath flags <> goModPath flags ->
  fs w !! goModConfigPath flags = Some (Regular y) ->
  Unmarshal y = Ok find ->
  Forall (fun cmd => fs w !! Replace cmd = Some Directory)
         (matches find (scan_lines (stripped d))) ->
  Forall (fun l => last_byte l <> Some cr)
         (List.filter (fun line => negb (HasPrefix line "replace"))
                      (scan_lines d)) ->
  Forall one_line (matches find (scan_lines (stripped d))) ->
  exists w1 w2,
    main Unmarshal flags w = (w1, Returned) /\
    main Unmarshal flags w1 = (w2, Returned) /\
    fs w2 = fs w1.
Proof.
  intros Hc Hf Hfit Hne Hy Hu Hdirs Hcr Hone.
  destruct (main_success Unmarshal flags w d y find) as (w1 & Hm1 & Hfs1);
    try done.
  set (ms := matches find (scan_lines (stripped d))) in *.
  set (m1 := stripped d +:+ cat (map directive ms)) in *.
  assert (stripped (stripped d) = stripped d) as Hss.
  { rewrite stripped_stripped. unfold stripped. f_equal.
    by apply map_dropCR_id. }
  assert (stripped m1 = stripped d) as Hs1.
  { unfold m1. rewrite stripped_app;
      [|apply ends_line_stripped|apply all_fit_stripped].
    by rewrite stripped_directives, app_empty_r. }
  destruct (main_success Unmarshal flags w1 m1 y find) as (w2 & Hm2 & Hfs2);
    try done.
  - rewrite Hfs1. apply lookup_insert_eq.
  - unfold m1. rewrite raw_lines_directives, all_fit_app;
      [|apply ends_line_stripped|done].
    by rewrite all_fit_stripped, one_line_fit.
  - rewrite Hfs1. by rewrite lookup_insert_ne.
  - rewrite Hs1. eapply Forall_impl; [exact Hdirs|].
    intros cmd Hd. simpl in *. rewrite Hfs1, lookup_insert_ne; [done|].
    intros E. rewrite <- E, Hf in Hd. done.
  - exists w1, w2. split; [done|]. split; [done|].
    by rewrite Hfs2, Hs1, Hfs1, insert_insert_eq.
Qed.

(** X18 on the scenario of the specification. *)
Lemma X18_witness :
  exists w1 w2,
    main scenario_yaml (scenario_flags false) (scenario_world true) =
      (w1, Returned) /\
    main scenario_yaml (scenario_flags false) w1 = (w2, Returned) /\
    fs w2 = fs w1.
Proof.
  apply (X18_main_twice scenario_yaml (scenario_flags false)
           (scenario_world true) scenario_manifest "- find: foo/bar"
           [mkFindReplace "foo/bar" "../local/bar"]);
    [reflexivity|reflexivity|reflexivity|done|reflexivity|reflexivity
    | | |].
  - repeat constructor.
  - repeat constructor; by vm_compute.
  - repeat constructor.
Defined.

(** X19. [appendModReplace] writes no line feed of its own before the
    first directive. On a manifest whose last line has no line feed the
    first directive continues that line; the other directives are lines of
    their own. *)
Theorem X19_append_continues_last_line path cmd replace w pre l :
  fs w !! path = Some (Regular (pre +:+ l)) ->
  ends_line pre ->
  l <> "" ->
  no_lf l = true ->
  Forall (fun c => no_lf (Find c) = true /\ no_lf (Replace c) = true)
         (cmd :: replace) ->
  exists w' content,
    appendModReplace path (cmd :: replace) w = (w', Ok tt) /\
    fs w' !! path = Some (Regular content) /\
    raw_lines content =
      raw_lines pre ++
      (l +:+ "replace " +:+ Find cmd +:+ " => " +:+ Replace cmd) ::
      map (fun c => "replace " +:+ Find c +:+ " => " +:+ Replace c) replace.
Proof.
  intros Hf Hpre Hne Hl Hlf.
  eexists _, _. split; [by apply appendModReplace_ok|].
  split; [apply lookup_insert_eq|].
  assert (Forall (fun s => no_lf s = true)
            (map directive_line (cmd :: replace))) as Hlines.
  { apply Forall_forall. intros s (c & <- & Hin)%list_elem_of_In%in_map_iff.
    rewrite Forall_forall in Hlf.
    destruct (Hlf c) as [? ?]; [by apply list_elem_of_In|].
    by apply no_lf_directive_line. }
  rewrite cat_map_directive, app_assoc', raw_lines_app_lf by done.
  f_equal. rewrite map_cons, unlines_cons, <- !app_assoc'.
  inversion Hlines as [|?? Hc Hrest]; subst.
  rewrite !app_assoc', <- (app_assoc' l), raw_lines_line
    by (by rewrite no_lf_app, Hl, Hc).
  by rewrite raw_lines_unlines.
Qed.

(** X19 on a manifest without final line feed. *)
Lemma X19_witness :
  exists w' content,
    appendModReplace "go.mod"
      [mkFindReplace "a" "../a"; mkFindReplace "b" "../b"]
      (mkWorld {[ "go.mod" := Regular ("module m" +:+ LF +:+ "go 1.21") ]} [])
    = (w', Ok tt) /\
    fs w' !! "go.mod" = Some (Regular content) /\
    raw_lines content =
      ["module m"; "go 1.21replace a => ../a"; "replace b => ../b"].
Proof.
  destruct (X19_append_continues_last_line "go.mod"
              (mkFindReplace "a" "../a") [mkFindReplace "b" "../b"]
              (mkWorld {[ "go.mod" :=
                   Regular ("module m" +:+ LF +:+ "go 1.21") ]} [])
              ("module m" +:+ LF) "go 1.21")
    as (w' & content & Hrun & Hfs & Hl);
    [reflexivity|by right|done|reflexivity|repeat constructor|].
  exists w', content. split; [exact Hrun|]. split; [exact Hfs|].
  rewrite Hl. reflexivity.
Defined.

(** X20. [-clean] undoes a run. After a successful run of [main] without
    [-clean] (under the conditions of X18), a run with [-clean] succeeds
    and leaves every file as a run with [-clean] on the original manifest
    leaves it. *)
Theorem X20_clean_undoes_run Unmarshal flags w d y find :
  clean flags = false ->
  fs w !! goModPath flags = Some (Regular d) ->
  all_fit (raw_lines d) = true ->
  goModConfigPath flags <> goModPath flags ->
  fs w !! goModConfigPath flags = Some (Regular y) ->
  Unmarshal y = Ok find ->
  Forall (fun cmd => fs w !! Replace cmd = Some Directory)
         (matches find (scan_lines (stripped d))) ->
  Forall (fun l => last_byte l <> Some cr)
         (List.filter (fun line => negb (HasPrefix line "replace"))
                      (scan_lines d)) ->
  Forall one_line (matches find (scan_lines (stripped d))) ->
  exists w1 w2 w0,
    main Unmarshal flags w = (w1, Returned) /\
    main Unmarshal
         (mkFlags (goModPath flags) (goModConfigPath flags) true) w1 =
      (w2, Returned) /\
    main Unmarshal
         (mkFlags (goModPath flags) (goModConfigPath flags) true) w =
      (w0, Returned) /\
    fs w2 = fs w0.
Proof.
  intros Hc Hf Hfit Hne Hy Hu Hdirs Hcr Hone.
  destruct (main_success Unmarshal flags w d y find) as (w1 & Hm1 & Hfs1);
    try done.
  set (ms := matches find (scan_lines (stripped d))) in *.
  set (m1 := stripped d +:+ cat (map directive ms)) in *.
  assert (stripped m1 = stripped d) as Hs1.
  { unfold m1. rewrite stripped_app;
      [|apply ends_line_stripped|apply all_fit_stripped].
    rewrite stripped_directives, app_empty_r by done.
    rewrite stripped_stripped. unfold stripped. f_equal.
    by apply map_dropCR_id. }
  assert (fs w1 !! goModPath flags = Some (Regular m1)) as Hf1
    by (rewrite Hfs1; apply lookup_insert_eq).
  assert (all_fit (raw_lines m1) = true) as Hfit1.
  { unfold m1. rewrite raw_lines_directives, all_fit_app;
      [|apply ends_line_stripped|done].
    by rewrite all_fit_stripped, one_line_fit. }
  eexists w1, _, _. split; [done|].
  split; [apply main_clean; [done|]; by apply deleteLinesWithReplace_ok|].
  split; [apply main_clean; [done|]; by apply deleteLinesWithReplace_ok|].
  simpl. by rewrite Hs1, Hfs1, insert_insert_eq.
Qed.

(** X20 on the scenario of the specification. *)
Lemma X20_witness :
  exists w1 w2,
    main scenario_yaml (scenario_flags false) (scenario_world true) =
      (w1, Returned) /\
    main scenario_yaml (scenario_flags true) w1 = (w2, Returned) /\
    fs w2 !! "go.mod" = Some (Regular ("require foo/bar v1.0.0" +:+ LF)).
Proof.
  destruct (X20_clean_undoes_run scenario_yaml (scenario_flags false)
              (scenario_world true) scenario_manifest "- find: foo/bar"
              [mkFindReplace "foo/bar" "../local/bar"])
    as (w1 & w2 & w0 & H1 & H2 & H0 & Hfs);
    [reflexivity|reflexivity|reflexivity|done|reflexivity|reflexivity
    | | | |].
  - repeat constructor.
  - repeat constructor; by vm_compute.
  - repeat constructor.
  - exists w1, w2. split; [exact H1|]. split; [exact H2|].
    rewrite Hfs. vm_compute in H0. by injection H0 as <-.
Defined.

(** X21. The stripper decides line by line, on the bytes alone. A line is
    dropped exactly when its text, without a trailing carriage return,
    starts with the seven bytes [replace], whatever follows them and
    whatever the lines around it are; a line with any byte before
    [replace], such as an indented directive, is kept. *)
Theorem X21_strip_line_by_line path w pre l post :
  fs w !! path = Some (Regular (pre +:+ l +:+ LF +:+ post)) ->
  all_fit (raw_lines (pre +:+ l +:+ LF +:+ post)) = true ->
  ends_line pre ->
  no_lf l = true ->
  exists w',
    deleteLinesWithReplace path w = (w', Ok tt) /\
    fs w' !! path =
      Some (Regular
              (stripped pre +:+
               (if HasPrefix (dropCR l) "replace" then ""
                else dropCR l +:+ LF) +:+
               stripped post)) /\
    (forall rest, l = "replace" +:+ rest ->
       HasPrefix (dropCR l) "replace" = true) /\
    (forall c l', l = String c l' -> c <> "r"%char ->
       HasPrefix (dropCR l) "replace" = false).
Proof.
  intros Hf Hfit Hpre Hl.
  eexists. split; [by apply deleteLinesWithReplace_ok|].
  split; [|split].
  - simpl. rewrite lookup_insert_eq. f_equal. f_equal.
    rewrite raw_lines_app_lf, all_fit_app in Hfit by done.
    apply andb_true_iff in Hfit as [Hfit1 Hfit2].
    rewrite <- app_assoc' in Hfit2.
    rewrite raw_lines_app_lf, all_fit_app in Hfit2
      by apply ends_line_app_LF.
    apply andb_true_iff in Hfit2 as [Hfit2 Hfit3].
    rewrite stripped_app by done. f_equal.
    rewrite <- app_assoc', stripped_app;
      [|apply ends_line_app_LF|done]. f_equal.
    rewrite <- (app_empty_r (l +:+ LF)), app_assoc' in Hfit2 |- *.
    rewrite raw_lines_line in Hfit2 by done. simpl in Hfit2.
    rewrite andb_true_r in Hfit2.
    unfold stripped, scan_lines. rewrite raw_lines_line by done. simpl.
    rewrite Hfit2. simpl. unfold keep.
    destruct (HasPrefix (dropCR l) "replace"); [done|].
    simpl. rewrite unlines_cons. change (unlines []) with "".
    by rewrite app_empty_r.
  - intros rest ->. unfold HasPrefix.
    destruct rest as [|c rest].
    + rewrite app_empty_r. reflexivity.
    + rewrite dropCR_app_r by done. apply prefix_app.
  - intros c l' -> Hc. unfold HasPrefix.
    assert (forall s, String.prefix "replace" (String c s) = false) as Hp.
    { intros s.
      change (String.prefix "replace" (String c s))
        with (if ascii_dec "r"%char c then String.prefix "eplace" s
              else false).
      by destruct (ascii_dec "r"%char c). }
    destruct (dropCR_cases (String c l')) as [->|E]; [apply Hp|].
    destruct (dropCR (String c l')) as [|c' s] eqn:Ed; [done|].
    rewrite app_cons in E. injection E as -> _. apply Hp.
Qed.

(** X21 on a manifest with the word [replacement] and an indented
    directive. *)
Lemma X21_witness :
  exists w',
    deleteLinesWithReplace "go.mod"
      (mkWorld
         {[ "go.mod" :=
              Regular ("module m" +:+ LF +:+
                       "replacement parts" +:+ LF +:+
                       "  replace a => ../a" +:+ LF) ]} [])
    = (w', Ok tt) /\
    fs w' !! "go.mod" =
      Some (Regular ("module m" +:+ LF +:+ "  replace a => ../a" +:+ LF)).
Proof.
  destruct (X21_strip_line_by_line "go.mod"
              (mkWorld
                 {[ "go.mod" :=
                      Regular ("module m" +:+ LF +:+
                               "replacement parts" +:+ LF +:+
                               "  replace a => ../a" +:+ LF) ]} [])
              ("module m" +:+ LF) "replacement parts"
              ("  replace a => ../a" +:+ LF))
    as (w' & Hrun & Hfs & _);
    [reflexivity|reflexivity|by right|reflexivity|].
  exists w'. split; [exact Hrun|]. rewrite Hfs. reflexivity.
Defined.
